(** * openmm_sims: the alkane molecular-dynamics notebook

    The repository is one Jupyter notebook, [openmm_sims.ipynb].  Its code
    cells are straight-line Python: every statement is a call into a
    collaborator (OpenMM, MDTraj, nglview, matplotlib, the Python
    standard library) with literal arguments.  This development embeds

    - the literals as Python has them (binary64 floats, integers, units);
    - every code cell as the list of its statements, in source order;
    - the Jupyter kernel as an explicit state (the global namespace as a
      finite map, the log of what the run has done so far) threaded
      through a small state-and-exception monad;
    - the outputs the notebook file records for the cells that were run.

    What the collaborators compute numerically (energies, temperatures,
    coordinates, distances) is not part of the notebook and is not
    modelled: such values are opaque. *)

From Stdlib Require Import NArith ZArith Uint63 Floats Ascii String Lia.
From stdpp Require Import base option list strings gmap.

#[local] Set Warnings "-inexact-float".
#[local] Open Scope N_scope.

(** ** Python literals *)

(** A numeric literal of the notebook: [298] is an [int], [298.15] a
    [float] (an IEEE binary64, as Rocq's primitive floats are). *)
Inductive number :=
| Int (z : Z)
| Float (f : float).

(** [float(x)] for the integers the notebook writes (all far below 2^53).
    A negative integer, or one of 2^63 or more, is outside this model:
    the conversion wraps there, and the notebook writes none. *)
Definition to_float (x : number) : float :=
  match x with
  | Int z => PrimFloat.of_uint63 (Uint63.of_Z z)
  | Float f => f
  end.

(** Python's [x == y] and [x < y] on numbers. *)
Definition num_eqb (x y : number) : bool := PrimFloat.eqb (to_float x) (to_float y).
Definition num_ltb (x y : number) : bool := PrimFloat.ltb (to_float x) (to_float y).

(** The double quote character, for the header lines the reporters print. *)
Definition dq : string := String (ascii_of_nat 34) EmptyString.

(** ** [openmm.unit] *)

Module unit.

Inductive Unit :=
| kelvin
| picoseconds
| femtoseconds
| nanoseconds
| inverse (u : Unit).

Record Quantity := { value : number; dimension : Unit }.

(** [x*unit.u] and [x/unit.u]. *)
Definition mul (x : number) (u : Unit) : Quantity :=
  {| value := x; dimension := u |}.
Definition div (x : number) (u : Unit) : Quantity :=
  {| value := x; dimension := inverse u |}.

(** The number of femtoseconds in one unit of time. *)
Definition femtoseconds_per (u : Unit) : option float :=
  match u with
  | femtoseconds => Some 1%float
  | picoseconds => Some 1000%float
  | nanoseconds => Some 1000000%float
  | _ => None
  end.

(** [q.value_in_unit(u)] between units of time. *)
Definition value_in_unit (q : Quantity) (u : Unit) : option float :=
  match femtoseconds_per (dimension q), femtoseconds_per u with
  | Some a, Some b => Some (PrimFloat.div (PrimFloat.mul (to_float (value q)) a) b)
  | _, _ => None
  end.

(** [n * q]: the time covered by [n] steps of length [q]. *)
Definition times (n : N) (q : Quantity) : Quantity :=
  {| value := Float (PrimFloat.mul (to_float (Int (Z.of_N n))) (to_float (value q)));
     dimension := dimension q |}.

End unit.

Abbreviation Quantity := unit.Quantity.

(** ** [openmm] and [openmm.app]: the objects the notebook creates

    An object is the record of the arguments it was built from and of the
    calls made on it since; what the engine derives from them stays
    inside the engine. *)

Inductive NonbondedMethod := NoCutoff.
Inductive Constraints := HBonds.

Record System := {
  system_topology : string;        (* the PDB file whose topology was passed *)
  system_forcefield : string;      (* the force-field file *)
  nonbondedMethod : NonbondedMethod;
  constraints : Constraints
}.

Record LangevinIntegrator := {
  temperature : Quantity;
  frictionCoeff : Quantity;
  stepSize : Quantity;
  constraintTolerance : option float   (* [None] until [setConstraintTolerance] *)
}.

(** Where a [StateDataReporter] writes. *)
Inductive sink := stdout.

Inductive Reporter :=
| StateDataReporter (file : sink) (reportInterval : N)
    (step time potentialEnergy temperature speed : bool) (separator : string)
| DCDReporter (file : string) (reportInterval : N).

Definition interval_of (r : Reporter) : N :=
  match r with
  | StateDataReporter _ i _ _ _ _ _ _ => i
  | DCDReporter _ i => i
  end.

Record Simulation := {
  topology : string;                  (* the PDB file whose topology was passed *)
  system : System;
  integrator : LangevinIntegrator;
  platform : string;
  positions : option string;          (* the PDB file the positions came from *)
  velocities : option Quantity;       (* the temperature they were last drawn at *)
  minimizations : list N;             (* [maxIterations] of each [minimizeEnergy] so far *)
  currentStep : N;
  reporters : list (Reporter * bool)  (* attached reporters; [true]: header already written *)
}.

(** ** Reporters

    The notebook configures reporters and leaves the reporting to the
    engine.  What a reporter writes, and when, is taken from the keyword
    arguments of the notebook's calls, from its comments ("every 100
    timesteps", "every 250000 steps") and from the console output saved
    in the notebook file, which the properties below compare with the
    model line by line. *)

(** The columns a [StateDataReporter] of the notebook can select, named
    by its keyword arguments. *)
Inductive column := Step | Time | PotentialEnergy | Temperature | Speed.

(** The title of a column, as the saved header lines spell it. *)
Definition title (c : column) : string :=
  match c with
  | Step => "Step"
  | Time => "Time (ps)"
  | PotentialEnergy => "Potential Energy (kJ/mole)"
  | Temperature => "Temperature (K)"
  | Speed => "Speed (ns/day)"
  end.

(** The selected columns, in the order of the saved header lines. *)
Definition columns (r : Reporter) : list column :=
  match r with
  | StateDataReporter _ _ st ti pe te sp _ =>
      (if st then [Step] else []) ++ (if ti then [Time] else [])
      ++ (if pe then [PotentialEnergy] else []) ++ (if te then [Temperature] else [])
      ++ (if sp then [Speed] else [])
  | DCDReporter _ _ => []
  end.

Definition separator_of (r : Reporter) : string :=
  match r with
  | StateDataReporter _ _ _ _ _ _ _ sep => sep
  | DCDReporter _ _ => ""
  end.

(** The header line: [#"Step","Potential Energy (kJ/mole)",...]. *)
Definition header_line (r : Reporter) : string :=
  "#" +:+ String.concat (separator_of r) (map (fun c => dq +:+ title c +:+ dq) (columns r)).

(** Modelled from the spec: the engine's reporting schedule is not in the
    repository; a reporter attached with an interval reports "at the
    configured interval".  The steps in [(c, c + n]] at which a reporter
    of interval [i] reports are the multiples of [i], in increasing
    order ([report_steps_spec]); the step counter starts at 0 when the
    simulation object is created and is never reset. *)
Definition report_steps (i c n : N) : list N :=
  map (fun k => N.of_nat k * i)
      (seq (S (N.to_nat (c / i))) (N.to_nat ((c + n) / i - c / i))).

(** ** What a run leaves behind *)

(** A line on the console.  The numbers the engine or the clock supply are
    left open; everything the notebook fixes is in the line. *)
Inductive out_line :=
| Text (s : string)
| Energy (prefix : string)                      (* f-string ending in [st.getPotentialEnergy()] *)
| Row (cols : list column) (sep : string) (at_step : N)
| Elapsed (before after : string)               (* [print(before, tfinal-tinit, after)] *)
| Shown (name : string).                        (* [print(name)] *)

(** ** The notebook's statements

    One constructor per statement form of the notebook, named after the
    Python text, with the literal arguments as its fields.  The names a
    statement reads are fixed by its form ([reads]), and so are the
    names it binds ([prepare]). *)

Inductive stmt :=
| import_as (module name : string)                         (* [import module as name] *)
| from_import (module : string) (names : list string)      (* [from module import ...] *)
| pdb_PDBFile (path : string)                              (* [pdb = app.PDBFile(path)] *)
| forcefield_ForceField (path : string)                    (* [forcefield = app.ForceField(path)] *)
| system_createSystem (nb : NonbondedMethod) (c : Constraints)
    (* [system = forcefield.createSystem(pdb.topology, nonbondedMethod=app.nb, constraints=app.c)] *)
| integrator_LangevinIntegrator (T friction dt : Quantity) (* [integrator = mm.LangevinIntegrator(T, friction, dt)] *)
| integrator_setConstraintTolerance (tol : float)
| platform_getPlatformByName (name : string)               (* [platform = mm.Platform.getPlatformByName(name)] *)
| simulation_Simulation            (* [simulation = app.Simulation(pdb.topology, system, integrator, platform)] *)
| simulation_context_setPositions                          (* [simulation.context.setPositions(pdb.positions)] *)
| st_getState (getPositions getEnergy : bool)              (* [st = simulation.context.getState(...)] *)
| print_str (s : string)                                   (* [print('...')] *)
| print_energy (prefix : string)               (* [print(F"prefix{st.getPotentialEnergy()}")] *)
| print_elapsed (before after : string)                    (* [print(before, tfinal-tinit, after)] *)
| print_name (x : string)                                  (* [print(x)] *)
| simulation_minimizeEnergy (maxIterations : N)
| simulation_reporters_append (r : Reporter)
| simulation_reporters_clear
| simulation_context_setVelocitiesToTemperature (T : Quantity)
| simulation_step (n : N)
| assign_time (target : string)                            (* [target=time.time()] *)
| traj_load (file top : string)                            (* [traj = md.load(file, top=top)] *)
| visualize_show_mdtraj                                    (* [visualize = ngl.show_mdtraj(traj)] *)
| display (name : string)                                  (* a bare name ending a cell *)
| atoms_bonds_to_dataframe                                 (* [atoms, bonds = traj.topology.to_dataframe()] *)
| assign_list (target : string) (l : list N)               (* [target = [...]] *)
| bond_length_compute_distances (selection : string)       (* [bond_length = md.compute_distances(traj, [selection])] *)
| plt_hist (data : string) (bins : N)  (* [bondcounts, binedges, otherstuff = plt.hist(data, bins=bins)] *)
| plt_title (s : string)
| plt_xlabel (s : string)
| plt_ylabel (s : string)
| plt_show.

(** The global names a statement evaluates, in Python's evaluation order. *)
Definition reads (s : stmt) : list string :=
  match s with
  | import_as _ _ | from_import _ _ => []
  | pdb_PDBFile _ | forcefield_ForceField _ => ["app"]
  | system_createSystem _ _ => ["forcefield"; "pdb"; "app"]
  | integrator_LangevinIntegrator _ _ _ => ["mm"; "unit"]
  | integrator_setConstraintTolerance _ => ["integrator"]
  | platform_getPlatformByName _ => ["mm"]
  | simulation_Simulation => ["app"; "pdb"; "system"; "integrator"; "platform"]
  | simulation_context_setPositions => ["simulation"; "pdb"]
  | st_getState _ _ => ["simulation"]
  | print_str _ => []
  | print_energy _ => ["st"]
  | print_elapsed _ _ => ["tfinal"; "tinit"]
  | print_name x => [x]
  | simulation_minimizeEnergy _ => ["simulation"]
  | simulation_reporters_append (StateDataReporter _ _ _ _ _ _ _ _) => ["simulation"; "app"; "stdout"]
  | simulation_reporters_append (DCDReporter _ _) => ["simulation"; "app"]
  | simulation_reporters_clear => ["simulation"]
  | simulation_context_setVelocitiesToTemperature _ => ["simulation"; "unit"]
  | simulation_step _ => ["simulation"]
  | assign_time _ => ["time"]
  | traj_load _ _ => ["md"]
  | visualize_show_mdtraj => ["ngl"; "traj"]
  | display x => [x]
  | atoms_bonds_to_dataframe => ["traj"]
  | assign_list _ _ => []
  | bond_length_compute_distances sel => ["md"; "traj"; sel]
  | plt_hist data _ => ["plt"; data]
  | plt_title _ | plt_xlabel _ | plt_ylabel _ | plt_show => ["plt"]
  end.

(** Whether running the statement calls into a collaborator (everything
    but a list display and a bare name). *)
Definition calls_out (s : stmt) : bool :=
  match s with
  | display _ | assign_list _ _ => false
  | _ => true
  end.

(** ** The kernel *)

(** What a global name can be bound to. *)
Inductive value :=
| Module (name : string)
| Imported (module name : string)
| PDBFile (path : string)
| ForceField (path : string)
| SystemObj (s : System)
| IntegratorObj (i : LangevinIntegrator)
| Platform (name : string)
| SimulationObj (s : Simulation)
| State (snapshot : Simulation)        (* what [getState] read *)
| Clock                                (* a reading of [time.time()] *)
| Trajectory (file top : string)
| List (l : list N)
| Opaque (made_by : stmt).             (* a collaborator's result the notebook only passes on *)

Inductive event :=
| Called (s : stmt)                              (* the statement's call was made *)
| Printed (l : out_line)                         (* a line on the console *)
| Frames (file : string) (interval from n : N).
  (* frames appended to a trajectory file while stepping from [from] to
     [from + n]: one at each step of [report_steps interval from n] *)

Record Kernel := {
  ns : gmap string value;     (* the global namespace *)
  log : list event            (* what has happened, oldest first *)
}.

Definition fresh : Kernel := {| ns := ∅; log := [] |}.

(** ** Running statements

    A statement runs in three steps: it evaluates the names it reads
    (Python raises [NameError] for an unbound one), it makes its call
    (the collaborator may raise), and the result is bound or the object
    updated. *)

(** The exceptions Python itself raises on the notebook's statements. *)
Inductive python_error :=
| NameError (name : string)       (* the global name is not bound *)
| TypeError (name : string)       (* the name is bound to another kind of object *)
| SyntaxError.                    (* the cell's text does not parse *)

(** What ends a run early.  [E] is whatever the collaborators raise; the
    notebook has no view into it. *)
Inductive exn (E : Type) :=
| Python (p : python_error)
| Raised (e : E).

Arguments Python {E} p.
Arguments Raised {E} e.

(** *** Looking names up *)

Definition lookup (A : Type) : Type := Kernel -> python_error + A.

#[global] Instance lookup_ret : MRet lookup := fun A a _ => inr a.

#[global] Instance lookup_bind : MBind lookup :=
  fun A B f m k => match m k with
                   | inl p => inl p
                   | inr a => f a k
                   end.

Definition fail {A} (p : python_error) : lookup A := fun _ => inl p.

Definition name (x : string) : lookup value :=
  fun k => match ns k !! x with
           | Some v => inr v
           | None => inl (NameError x)
           end.

(** Every name of [xs] is bound, checked left to right. *)
Fixpoint bound (xs : list string) : lookup () :=
  match xs with
  | [] => mret ()
  | x :: xs' => _ ← name x; bound xs'
  end.

Definition the_pdb : lookup string :=
  v ← name "pdb";
  match v with PDBFile p => mret p | _ => fail (TypeError "pdb") end.

Definition the_forcefield : lookup string :=
  v ← name "forcefield";
  match v with ForceField p => mret p | _ => fail (TypeError "forcefield") end.

Definition the_system : lookup System :=
  v ← name "system";
  match v with SystemObj s => mret s | _ => fail (TypeError "system") end.

Definition the_integrator : lookup LangevinIntegrator :=
  v ← name "integrator";
  match v with IntegratorObj i => mret i | _ => fail (TypeError "integrator") end.

Definition the_platform : lookup string :=
  v ← name "platform";
  match v with Platform p => mret p | _ => fail (TypeError "platform") end.

Definition the_simulation : lookup Simulation :=
  v ← name "simulation";
  match v with SimulationObj s => mret s | _ => fail (TypeError "simulation") end.

(** *** Effects on the kernel

    Once its call has returned, a statement binds names and, through the
    engine, writes to the console and to trajectory files. *)

Inductive action :=
| Bind (x : string) (v : value)
| Emit (e : event).

Definition assign (x : string) (v : value) (k : Kernel) : Kernel :=
  {| ns := <[x := v]> (ns k); log := log k |}.

Definition emit (es : list event) (k : Kernel) : Kernel :=
  {| ns := ns k; log := log k ++ es |}.

Definition act (k : Kernel) (a : action) : Kernel :=
  match a with
  | Bind x v => assign x v k
  | Emit e => emit [e] k
  end.

Definition perform (actions : list action) (k : Kernel) : Kernel := foldl act k actions.

(** Updates of the simulation object (Python mutates it in place; the
    notebook reaches it through the one name [simulation]). *)
Definition with_positions (p : string) (s : Simulation) : Simulation :=
  {| topology := topology s; system := system s; integrator := integrator s;
     platform := platform s; positions := Some p; velocities := velocities s;
     minimizations := minimizations s; currentStep := currentStep s;
     reporters := reporters s |}.

Definition with_velocities (T : Quantity) (s : Simulation) : Simulation :=
  {| topology := topology s; system := system s; integrator := integrator s;
     platform := platform s; positions := positions s; velocities := Some T;
     minimizations := minimizations s; currentStep := currentStep s;
     reporters := reporters s |}.

Definition with_minimization (maxIterations : N) (s : Simulation) : Simulation :=
  {| topology := topology s; system := system s; integrator := integrator s;
     platform := platform s; positions := positions s; velocities := velocities s;
     minimizations := minimizations s ++ [maxIterations]; currentStep := currentStep s;
     reporters := reporters s |}.

Definition with_reporters (rs : list (Reporter * bool)) (s : Simulation) : Simulation :=
  {| topology := topology s; system := system s; integrator := integrator s;
     platform := platform s; positions := positions s; velocities := velocities s;
     minimizations := minimizations s; currentStep := currentStep s;
     reporters := rs |}.

Definition with_currentStep (c : N) (s : Simulation) : Simulation :=
  {| topology := topology s; system := system s; integrator := integrator s;
     platform := platform s; positions := positions s; velocities := velocities s;
     minimizations := minimizations s; currentStep := c;
     reporters := reporters s |}.

(** Modelled from the spec: the engine's reporters are not in the
    repository.  What one attached reporter does while the step counter
    goes from [c] to [c + n], and the reporter as it is left: a console
    reporter writes its header before its first line and one data line
    per report; a trajectory reporter appends one frame per report to
    its file.  That constructing a trajectory reporter opens its file,
    emptying one that exists, is not modelled: a [Frames] event says
    which frames a call of [step] adds, not what the file holds. *)
Definition report (c n : N) (rb : Reporter * bool) : list event * (Reporter * bool) :=
  match rb with
  | (StateDataReporter _ i _ _ _ _ _ sep as r, started) =>
      match report_steps i c n with
      | [] => ([], rb)
      | due =>
          ((if started then [] else [Printed (Text (header_line r))])
           ++ map (fun at_step => Printed (Row (columns r) sep at_step)) due,
           (r, true))
      end
  | (DCDReporter file i, _) => ([Frames file i c n], rb)
  end.

(** [simulation.step(n)] on the object [s]: the events of its reporters,
    reporter by reporter, and the object afterwards.  With several
    console reporters attached the engine writes their lines step by
    step; the order between the lines of different reporters within one
    call is therefore not the engine's, the lines of each reporter
    are. *)
Definition stepped (n : N) (s : Simulation) : list event * Simulation :=
  let done := map (report (currentStep s) n) (reporters s) in
  (concat (map fst done),
   with_currentStep (currentStep s + n) (with_reporters (map snd done) s)).

(** *** One statement *)

(** The objects a statement needs, looked up before its call, and what
    the statement does to the kernel once the call has returned. *)
Definition prepare (s : stmt) : lookup (list action) :=
  match s with
  | import_as m x => mret [Bind x (Module m)]
  | from_import m xs => mret (map (fun x => Bind x (Imported m x)) xs)
  | pdb_PDBFile p => mret [Bind "pdb" (PDBFile p)]
  | forcefield_ForceField p => mret [Bind "forcefield" (ForceField p)]
  | system_createSystem nb c =>
      ff ← the_forcefield; pdb ← the_pdb;
      mret [Bind "system" (SystemObj {| system_topology := pdb; system_forcefield := ff;
                                        nonbondedMethod := nb; constraints := c |})]
  | integrator_LangevinIntegrator T friction dt =>
      mret [Bind "integrator" (IntegratorObj {| temperature := T; frictionCoeff := friction;
                                                stepSize := dt; constraintTolerance := None |})]
  | integrator_setConstraintTolerance tol =>
      i ← the_integrator;
      mret [Bind "integrator" (IntegratorObj {| temperature := temperature i;
                                                frictionCoeff := frictionCoeff i;
                                                stepSize := stepSize i;
                                                constraintTolerance := Some tol |})]
  | platform_getPlatformByName p => mret [Bind "platform" (Platform p)]
  | simulation_Simulation =>
      pdb ← the_pdb; sys ← the_system; i ← the_integrator; pl ← the_platform;
      mret [Bind "simulation" (SimulationObj {| topology := pdb; system := sys;
                                                integrator := i; platform := pl;
                                                positions := None; velocities := None;
                                                minimizations := []; currentStep := 0;
                                                reporters := [] |})]
  | simulation_context_setPositions =>
      sim ← the_simulation; pdb ← the_pdb;
      mret [Bind "simulation" (SimulationObj (with_positions pdb sim))]
  | st_getState _ _ => sim ← the_simulation; mret [Bind "st" (State sim)]
  | print_str text => mret [Emit (Printed (Text text))]
  | print_energy prefix => mret [Emit (Printed (Energy prefix))]
  | print_elapsed before after => mret [Emit (Printed (Elapsed before after))]
  | print_name x => mret [Emit (Printed (Shown x))]
  | simulation_minimizeEnergy maxIterations =>
      sim ← the_simulation;
      mret [Bind "simulation" (SimulationObj (with_minimization maxIterations sim))]
  | simulation_reporters_append r =>
      sim ← the_simulation;
      mret [Bind "simulation"
              (SimulationObj (with_reporters (reporters sim ++ [(r, false)]) sim))]
  | simulation_reporters_clear =>
      sim ← the_simulation;
      mret [Bind "simulation" (SimulationObj (with_reporters [] sim))]
  | simulation_context_setVelocitiesToTemperature T =>
      sim ← the_simulation;
      mret [Bind "simulation" (SimulationObj (with_velocities T sim))]
  | simulation_step n =>
      sim ← the_simulation;
      mret (map Emit (fst (stepped n sim))
            ++ [Bind "simulation" (SimulationObj (snd (stepped n sim)))])
  | assign_time target => mret [Bind target Clock]
  | traj_load file top => mret [Bind "traj" (Trajectory file top)]
  | visualize_show_mdtraj => mret [Bind "visualize" (Opaque s)]
  | atoms_bonds_to_dataframe => mret [Bind "atoms" (Opaque s); Bind "bonds" (Opaque s)]
  | assign_list target l => mret [Bind target (List l)]
  | bond_length_compute_distances _ => mret [Bind "bond_length" (Opaque s)]
  | plt_hist _ _ =>
      mret [Bind "bondcounts" (Opaque s); Bind "binedges" (Opaque s);
            Bind "otherstuff" (Opaque s)]
  | display _ | plt_title _ | plt_xlabel _ | plt_ylabel _ | plt_show => mret []
  end.

(** The outcome of a run: the kernel as it was left, and the exception
    that stopped the run, if one did. *)
Definition outcome (E : Type) : Type := Kernel * option (exn E).

Section Run.

Context {E : Type}.

(** The collaborators: whether the call a statement makes raises, in
    the kernel state it is made in. *)
Variable raises : Kernel -> stmt -> option E.

(** The failure of the call of [s] made in [k], if it fails. *)
Definition failure (k : Kernel) (s : stmt) : option E :=
  if calls_out s then raises k s else None.

Definition exec (s : stmt) (k : Kernel) : outcome E :=
  match (_ ← bound (reads s); prepare s) k with
  | inl p => (k, Some (Python p))
  | inr actions =>
      let k' := emit [Called s] k in
      match failure k s with
      | Some e => (k', Some (Raised e))
      | None => (perform actions k', None)
      end
  end.

(** A cell body: its statements in order; the first exception ends it. *)
Fixpoint run (body : list stmt) (k : Kernel) : outcome E :=
  match body with
  | [] => (k, None)
  | s :: body' =>
      match exec s k with
      | (k', None) => run body' k'
      | stopped => stopped
      end
  end.

End Run.

(** ** Cells

    A code cell is compiled as a whole before any of it runs: a line
    that is not Python makes the cell raise [SyntaxError] and run
    nothing. *)

Inductive line :=
| Stmt (s : stmt)
| Broken (text : string).      (* text that is not a Python statement *)

Record cell := {
  position : nat;                  (* index of the cell in the notebook, markdown cells counted *)
  execution_count : option N;      (* as saved in the notebook file *)
  source : list line;
  recorded : list string           (* the console output saved with the cell *)
}.

Fixpoint statements (src : list line) : option (list stmt) :=
  match src with
  | [] => Some []
  | Stmt s :: src' => cons s <$> statements src'
  | Broken _ :: _ => None
  end.

(** The statements of the lines of a cell that are Python, in order. *)
Fixpoint written (src : list line) : list stmt :=
  match src with
  | [] => []
  | Stmt s :: src' => s :: written src'
  | Broken _ :: src' => written src'
  end.

Definition run_cell {E} (raises : Kernel -> stmt -> option E) (c : cell) (k : Kernel)
  : outcome E :=
  match statements (source c) with
  | Some body => run raises body k
  | None => (k, Some (Python SyntaxError))
  end.

(** "Run All": the cells top to bottom, stopping at the first exception. *)
Fixpoint run_all {E} (raises : Kernel -> stmt -> option E) (cells : list cell) (k : Kernel)
  : outcome E :=
  match cells with
  | [] => (k, None)
  | c :: cells' =>
      match run_cell raises c k with
      | (k', None) => run_all raises cells' k'
      | stopped => stopped
      end
  end.

(** Collaborators that never fail. *)
Definition flawless : Kernel -> stmt -> option Empty_set := fun _ _ => None.

(** ** The notebook

    The code cells of [openmm_sims.ipynb], top to bottom.  [cell_n] is the
    cell at index [n] of the file (markdown cells counted). *)

(** The console output the notebook records for cell 19. *)
Definition recorded_19 : list string :=
  ["Minimizing...";
   "Potential energy before minimization is 4.467818271065182 kJ/mol";
   "Potential energy after minimization is 4.389967724953268 kJ/mol"].

(** The console output the notebook records for cell 24. *)
Definition recorded_24 : list string :=
  ["Equilibrating...";
   ("#" +:+ dq +:+ "Step" +:+ dq +:+ "," +:+ dq +:+ "Potential Energy (kJ/mole)" +:+ dq +:+ "," +:+ dq +:+ "Temperature (K)" +:+ dq);
   "100,14.034846213609665,412.88567572831795";
   "200,15.944912376236335,388.5507431282175";
   "300,28.159596278419997,350.79407617666766";
   "400,23.9520294528912,394.93212867069366";
   "500,15.59985261631188,332.2038826503667";
   "600,25.999676640999496,110.32820423639593";
   "700,21.570115844409056,261.0723585511351";
   "800,24.351522500809995,133.7906846768851";
   "900,19.762045500392254,429.22206807823056";
   "1000,26.91405153665985,332.1295823316184";
   "1100,20.52274369939086,365.5866505888021";
   "1200,22.812544039872915,242.1510425797455";
   "1300,22.636919811118467,323.4302376205737";
   "1400,25.35178185753454,272.2594026683726";
   "1500,32.18577069393248,284.6804649383162";
   "1600,17.901303322711495,237.24293435016486";
   "1700,14.378552424757665,404.45663671410244";
   "1800,30.059767863168634,309.1050789155913";
   "1900,22.93406958258751,386.59972366412404";
   "2000,28.886336838732397,219.76102578812768";
   "2100,13.342239228830728,198.5104834847249";
   "2200,13.533657648749337,182.60273279679996";
   "2300,22.293607369390912,477.90226429270655";
   "2400,18.06707276680214,411.7341226186754";
   "2500,17.44046831198291,292.59446378885946"].

(** The console output the notebook records for cell 28. *)
Definition recorded_28 : list string :=
  ["Running Production...";
   ("#" +:+ dq +:+ "Step" +:+ dq +:+ "," +:+ dq +:+ "Time (ps)" +:+ dq +:+ "," +:+ dq +:+ "Potential Energy (kJ/mole)" +:+ dq +:+ "," +:+ dq +:+ "Temperature (K)" +:+ dq +:+ "," +:+ dq +:+ "Speed (ns/day)" +:+ dq);
   "250000,500.0000000016593,14.378065665634262,202.9409878127568,0";
   "500000,999.9999999901769,17.053142933051717,418.55256695036036,2.8e+04";
   "750000,1499.9999999783536,12.097997078020308,332.29680251797373,2.79e+04";
   "1000000,1999.9999999665301,30.983496808126063,207.77569112297954,2.78e+04";
   "1250000,2499.9999999547067,29.316254526233987,293.3095917595377,2.78e+04";
   "1500000,2999.9999999428833,21.858492133885846,344.93881211962747,2.78e+04";
   "1750000,3499.99999993106,24.09512744619221,222.81075265149383,2.78e+04";
   "2000000,3999.9999999192364,16.076376031470353,186.43552923010273,2.77e+04";
   "2250000,4499.9999999992715,17.210450003614113,370.3145374086201,2.77e+04";
   "2500000,5000.000000101135,13.09636570810093,227.74052911896055,2.74e+04";
   "2750000,5500.000000202998,10.055229922402686,221.5629474702949,2.74e+04";
   "3000000,6000.000000304862,19.00087542209232,103.14323592866705,2.74e+04";
   "3250000,6500.000000406725,20.01255902366863,273.5944766271367,2.74e+04";
   "3500000,7000.0000005085885,24.009640302243724,428.5948718905803,2.75e+04";
   "3750000,7500.000000610452,22.145006350704946,317.60903616894836,2.75e+04";
   "4000000,8000.000000712315,10.190369785308395,262.45263530148014,2.75e+04";
   "4250000,8500.000000814178,22.02352490005237,293.232809521419,2.75e+04";
   "4500000,9000.000000916041,15.658958459094965,215.30722970632047,2.75e+04";
   "4750000,9500.000001017905,28.346990177537734,209.8991401550207,2.73e+04";
   "5000000,10000.000001119768,20.173161724594962,496.09392701693616,2.73e+04";
   "5250000,10500.000001221631,23.679115383107348,122.11800524162857,2.74e+04";
   "5500000,11000.000001323495,27.17800775329998,219.56926727906298,2.74e+04";
   "5750000,11500.000001425358,22.346489660102677,234.76557075758197,2.74e+04";
   "6000000,12000.000001527222,15.888238168790034,583.3643278545328,2.74e+04";
   "6250000,12500.000001629085,13.269576945371615,461.66794282414077,2.74e+04";
   "6500000,13000.000001730948,20.83573093575547,206.08606479780994,2.74e+04";
   "6750000,13500.000001832812,17.49084452640124,184.45569818638103,2.74e+04";
   "7000000,14000.000001934675,15.440492532085015,295.8824689866887,2.73e+04";
   "7250000,14500.000002036539,21.48898401558931,277.7070837895781,2.73e+04";
   "7500000,15000.000002138402,20.20311336125821,284.83307153894646,2.71e+04";
   "7750000,15500.000002240266,16.570082968048556,407.13339276798223,2.7e+04";
   "8000000,16000.000002342129,31.75851252574108,365.113178094689,2.7e+04";
   "8250000,16500.00000244399,13.69793987786912,117.19375369433797,2.7e+04";
   "8500000,17000.000002545854,14.291288737572696,186.47164529663775,2.7e+04";
   "8750000,17500.000002647717,23.836441198450128,298.10248477138293,2.69e+04";
   "9000000,18000.00000274958,10.375762518245118,297.3077364935946,2.69e+04";
   "9250000,18500.000002851444,12.511004944305798,251.41905635616985,2.7e+04";
   "9500000,19000.000002953308,17.856991163635467,186.17260244356177,2.7e+04";
   "9750000,19500.00000305517,26.02286475696573,321.7495702683814,2.69e+04";
   "10000000,20000.000003157034,36.161342335388106,379.03784212199264,2.68e+04";
   "Done!";
   "Time required for simulation: 64.37596702575684 seconds"].

(** The console output the notebook records for cell 32. *)
Definition recorded_32 : list string :=
  ["Minimizing...";
   "Potential energy before minimization is 5.797528692127868 kJ/mol";
   "Potential energy after minimization is 5.295784483017486 kJ/mol";
   "Equilibrating...";
   ("#" +:+ dq +:+ "Step" +:+ dq +:+ "," +:+ dq +:+ "Potential Energy (kJ/mole)" +:+ dq +:+ "," +:+ dq +:+ "Temperature (K)" +:+ dq);
   "250,35.3293610728431,377.99360963724604";
   "500,32.914370795078696,266.32383093566114";
   "750,54.91832565536845,338.4975975582279";
   "1000,31.951928630267396,406.43819755911716";
   "1250,53.82859327570476,369.464024840027";
   "1500,59.823407955749836,197.6425679517721";
   "1750,56.30366278285174,307.609001207952";
   "2000,49.92505130993653,485.10406481983694";
   "2250,14.968692250930108,300.55778667777446";
   "2500,29.001963693973394,294.58025418518196";
   "2750,47.887653179717425,325.61043102430165";
   "3000,48.788049158950486,133.6404008212833";
   "3250,50.483163386784874,266.1492111159933";
   "3500,43.46946634541573,266.6659552455204";
   "3750,44.108708594154514,409.8434146285466";
   "4000,33.02809649744729,317.9246768033946";
   "4250,37.129607070303514,440.31910053582794";
   "4500,29.39123231117899,384.8577492390589";
   "4750,42.53260375254895,211.37590920175268";
   "5000,43.38049439910678,300.4623029594358";
   "Running Production...";
   ("#" +:+ dq +:+ "Step" +:+ dq +:+ "," +:+ dq +:+ "Time (ps)" +:+ dq +:+ "," +:+ dq +:+ "Potential Energy (kJ/mole)" +:+ dq +:+ "," +:+ dq +:+ "Temperature (K)" +:+ dq +:+ "," +:+ dq +:+ "Speed (ns/day)" +:+ dq);
   "500000,999.9999999901769,38.95315187367367,231.85480480496065,0";
   "1000000,1999.9999999665301,63.135237403741826,421.76618493105155,1.25e+04";
   "1500000,2999.9999999428833,51.16300580487105,264.1010747131898,1.29e+04";
   "2000000,3999.9999999192364,41.037458277416576,249.0786077611033,1.31e+04";
   "2500000,5000.000000101135,45.33882653411905,212.02630741898636,1.27e+04";
   "3000000,6000.000000304862,43.482241555897104,206.12408129360801,1.23e+04";
   "3500000,7000.0000005085885,41.747659443149466,292.34637989985174,1.23e+04";
   "4000000,8000.000000712315,38.30419708095677,362.97608048150875,1.23e+04";
   "4500000,9000.000000916041,38.699132534672295,298.9263207564334,1.23e+04";
   "5000000,10000.000001119768,57.03611949055889,291.8739381212588,1.23e+04";
   "5500000,11000.000001323495,44.35161874157471,341.20600328965173,1.24e+04";
   "6000000,12000.000001527222,41.40790794059394,208.7302545945757,1.23e+04";
   "6500000,13000.000001730948,24.07859828031146,331.97914779757446,1.23e+04";
   "7000000,14000.000001934675,27.22378017244852,390.41836233973385,1.24e+04";
   "7500000,15000.000002138402,57.659167472662155,389.9176557470309,1.24e+04";
   "8000000,16000.000002342129,61.256762600013104,172.85054110823327,1.25e+04";
   "8500000,17000.000002545854,74.16504196075323,289.5490765756857,1.25e+04";
   "9000000,18000.00000274958,68.4399233263666,301.36721717598476,1.24e+04";
   "9500000,19000.000002953308,49.58916902315826,221.33597014638147,1.24e+04";
   "10000000,20000.000003157034,35.677951332524856,386.00719094860636,1.24e+04";
   "10500000,21000.00000336076,43.68028264558664,254.38423348410362,1.24e+04";
   "11000000,22000.000003564488,30.879639012829777,327.0316782197346,1.23e+04";
   "11500000,23000.000003768215,39.696109158403004,218.42819558833912,1.23e+04";
   "12000000,24000.00000397194,37.71674932086374,384.55336663648006,1.23e+04";
   "12500000,25000.00000417567,32.73683547159949,333.51639766438205,1.24e+04";
   "13000000,26000.000004379395,43.18020043448763,203.18061475174,1.24e+04";
   "13500000,27000.000004583122,51.3096169333999,186.90318991177938,1.24e+04";
   "14000000,28000.00000478685,50.06102235087084,183.1546780298497,1.24e+04";
   "14500000,29000.000004990576,27.255935621249993,370.1032595124919,1.24e+04";
   "15000000,30000.000005194303,64.10025162090392,322.60082644986903,1.24e+04";
   "15500000,31000.00000539803,47.20924642703472,222.12150579760223,1.24e+04";
   "16000000,32000.000005601756,65.8445453049559,229.6158998262759,1.24e+04";
   "16500000,33000.00000580548,49.916876151421775,317.36204702767884,1.24e+04";
   "17000000,34000.000006009206,43.29850973731067,223.99466756771878,1.24e+04";
   "17500000,35000.00000621293,42.67548106456455,423.01977701260216,1.24e+04";
   "18000000,36000.00000641666,43.22607452756131,204.77026801436972,1.24e+04";
   "18500000,37000.00000662039,29.003628376572582,348.56236301906057,1.24e+04";
   "19000000,38000.00000682411,48.81945147886799,299.7198924571987,1.24e+04";
   "19500000,39000.00000702784,46.78391360809271,182.60017315245634,1.24e+04";
   "20000000,40000.00000723157,64.49618207639904,186.51201136016581,1.24e+04";
   "Done!";
   "Time required for simulation: 277.41938304901123 seconds"].

Definition cell_5 : cell :=
  {| position := 5; execution_count := Some 1; recorded := [];
     source := [Stmt (import_as "openmm" "mm");
                Stmt (from_import "openmm" ["app"; "unit"])] |}.

Definition cell_7 : cell :=
  {| position := 7; execution_count := Some 2; recorded := [];
     source := [Stmt (pdb_PDBFile "data/ethane.pdb");
                Stmt (forcefield_ForceField "data/ethane.gaff2.xml")] |}.

Definition cell_11 : cell :=
  {| position := 11; execution_count := Some 3; recorded := [];
     source := [Stmt (system_createSystem NoCutoff HBonds)] |}.

Definition cell_13 : cell :=
  {| position := 13; execution_count := Some 18; recorded := [];
     source := [Stmt (integrator_LangevinIntegrator
                        (unit.mul (Float 298.15) unit.kelvin)
                        (unit.div (Float 5.0) unit.picoseconds)
                        (unit.mul (Float 2.0) unit.femtoseconds));
                Stmt (integrator_setConstraintTolerance 1e-5)] |}.

Definition cell_16 : cell :=
  {| position := 16; execution_count := Some 19; recorded := [];
     source := [Stmt (platform_getPlatformByName "Reference");
                Stmt simulation_Simulation;
                Stmt simulation_context_setPositions] |}.

Definition cell_19 : cell :=
  {| position := 19; execution_count := Some 20; recorded := recorded_19;
     source := [Stmt (print_str "Minimizing...");
                Stmt (st_getState true true);
                Stmt (print_energy "Potential energy before minimization is ");
                Stmt (simulation_minimizeEnergy 100);
                Stmt (st_getState true true);
                Stmt (print_energy "Potential energy after minimization is ")] |}.

Definition cell_24 : cell :=
  {| position := 24; execution_count := Some 21; recorded := recorded_24;
     source := [Stmt (from_import "sys" ["stdout"]);
                Stmt (print_str "Equilibrating...");
                Stmt (simulation_reporters_append
                        (StateDataReporter stdout 100 true false true true false ","));
                Stmt (simulation_context_setVelocitiesToTemperature
                        (unit.mul (Float 150.0) unit.kelvin));
                Stmt (simulation_step 2500)] |}.

Definition cell_28 : cell :=
  {| position := 28; execution_count := Some 22; recorded := recorded_28;
     source := [Stmt (import_as "time" "time");
                Stmt (print_str "Running Production...");
                Stmt (assign_time "tinit");
                Stmt simulation_reporters_clear;
                Stmt (simulation_reporters_append
                        (StateDataReporter stdout 250000 true true true true true ","));
                Stmt (simulation_reporters_append (DCDReporter "ethane_sim.dcd" 100));
                Stmt (simulation_step 10000000);
                Stmt (assign_time "tfinal");
                Stmt (print_str "Done!");
                Stmt (print_elapsed "Time required for simulation:" "seconds")] |}.

(** "Your Turn": the butane run, one cell. *)
Definition cell_32 : cell :=
  {| position := 32; execution_count := Some 30; recorded := recorded_32;
     source := [Stmt (pdb_PDBFile "data/butane.pdb");
                Stmt (forcefield_ForceField "data/butane.gaff2.xml");
                Stmt (system_createSystem NoCutoff HBonds);
                Stmt (integrator_LangevinIntegrator
                        (unit.mul (Float 298.15) unit.kelvin)
                        (unit.div (Float 5.0) unit.picoseconds)
                        (unit.mul (Float 2.0) unit.femtoseconds));
                Stmt (integrator_setConstraintTolerance 1e-5);
                Stmt (platform_getPlatformByName "Reference");
                Stmt simulation_Simulation;
                Stmt simulation_context_setPositions;
                Stmt (print_str "Minimizing...");
                Stmt (st_getState true true);
                Stmt (print_energy "Potential energy before minimization is ");
                Stmt (simulation_minimizeEnergy 100);
                Stmt (st_getState true true);
                Stmt (print_energy "Potential energy after minimization is ");
                Stmt (from_import "sys" ["stdout"]);
                Stmt (print_str "Equilibrating...");
                Stmt (simulation_reporters_append
                        (StateDataReporter stdout 250 true false true true false ","));
                Stmt (simulation_context_setVelocitiesToTemperature
                        (unit.mul (Int 298) unit.kelvin));
                Stmt (simulation_step 5000);
                Stmt (print_str "Running Production...");
                Stmt (assign_time "tinit");
                Stmt simulation_reporters_clear;
                Stmt (simulation_reporters_append
                        (StateDataReporter stdout 500000 true true true true true ","));
                Stmt (simulation_reporters_append (DCDReporter "butane_sim.dcd" 100));
                Stmt (simulation_step 20000000);
                Stmt (assign_time "tfinal");
                Stmt (print_str "Done!");
                Stmt (print_elapsed "Time required for simulation:" "seconds")] |}.

(** Shown again in the analysis section ("you do not need to execute it"). *)
Definition cell_35 : cell :=
  {| position := 35; execution_count := None; recorded := [];
     source := [Stmt (simulation_reporters_append (DCDReporter "ethane_sim.dcd" 100))] |}.

(** A shell command pasted into a code cell. *)
Definition cell_37 : cell :=
  {| position := 37; execution_count := None; recorded := [];
     source := [Broken "$ conda install -c conda-forge mdtraj nglview"] |}.

Definition cell_38 : cell :=
  {| position := 38; execution_count := None; recorded := [];
     source := [Stmt (import_as "mdtraj" "md");
                Stmt (traj_load "ethane_sim.dcd" "data/ethane.pdb")] |}.

Definition cell_40 : cell :=
  {| position := 40; execution_count := None; recorded := [];
     source := [Stmt (import_as "nglview" "ngl");
                Stmt visualize_show_mdtraj;
                Stmt (display "visualize")] |}.

Definition cell_42 : cell :=
  {| position := 42; execution_count := None; recorded := [];
     source := [Stmt atoms_bonds_to_dataframe;
                Stmt (display "atoms")] |}.

Definition cell_45 : cell :=
  {| position := 45; execution_count := None; recorded := [];
     source := [Stmt (assign_list "bond_indices" [0; 4]);
                Stmt (bond_length_compute_distances "bond_indices")] |}.

Definition cell_47 : cell :=
  {| position := 47; execution_count := None; recorded := [];
     source := [Stmt (import_as "matplotlib.pyplot" "plt");
                Stmt (plt_hist "bond_length" 120);
                Stmt (plt_title "C-C bond length histogram");
                Stmt (plt_xlabel "Bond length (nm)");
                Stmt (plt_ylabel "Counts");
                Stmt plt_show] |}.

(** "Your Turn": the torsion exercise, left as the template has it. *)
Definition cell_49 : cell :=
  {| position := 49; execution_count := None; recorded := [];
     source := [Stmt (assign_list "phi_indices" []);
                Broken "phi = # use the compute_dihedrals function";
                Stmt (print_name "phi")] |}.

Definition cell_51 : cell :=
  {| position := 51; execution_count := None; recorded := [];
     source := [Stmt (import_as "matplotlib.pyplot" "plt")] |}.

Definition notebook : list cell :=
  [cell_5; cell_7; cell_11; cell_13; cell_16; cell_19; cell_24; cell_28; cell_32;
   cell_35; cell_37; cell_38; cell_40; cell_42; cell_45; cell_47; cell_49; cell_51].

(** The two simulation runs. *)
Definition ethane_run : list cell :=
  [cell_5; cell_7; cell_11; cell_13; cell_16; cell_19; cell_24; cell_28].

Definition butane_run : list cell := [cell_32].

(** The cells the saved notebook was run through (those with an
    execution count), and the kernel they leave. *)
Definition executed : list cell := filter (fun c => bool_decide (is_Some (execution_count c))) notebook.

Definition after_ethane : Kernel := fst (run_all flawless ethane_run fresh).
Definition after_butane : Kernel := fst (run_all flawless butane_run after_ethane).

(** What a run added to the log. *)
Definition since (before after : Kernel) : list event :=
  drop (length (log before)) (log after).

Definition ethane_events : list event := since fresh after_ethane.
Definition butane_events : list event := since after_ethane after_butane.

(** ** Reading the log *)

Definition console (l : list event) : list out_line :=
  omap (fun e => match e with Printed o => Some o | _ => None end) l.

Definition calls (l : list event) : list stmt :=
  omap (fun e => match e with Called s => Some s | _ => None end) l.

Definition rows (l : list event) : list N :=
  omap (fun e => match e with Printed (Row _ _ at_step) => Some at_step | _ => None end) l.

Definition trajectories (l : list event) : list (string * N * N * N) :=
  omap (fun e => match e with Frames f i c n => Some (f, i, c, n) | _ => None end) l.

(** The events from the banner line [banner] on. *)
Fixpoint from_banner (banner : string) (l : list event) : list event :=
  match l with
  | [] => []
  | Printed (Text s) :: l' => if String.eqb s banner then l' else from_banner banner l'
  | _ :: l' => from_banner banner l'
  end.

(** ** Reading recorded console lines *)

Fixpoint ends_with (suffix s : string) : bool :=
  String.eqb suffix s ||
  match s with
  | EmptyString => false
  | String _ s' => ends_with suffix s'
  end.

(** [s.split(sep)] for a one-character separator. *)
Fixpoint split_on (sep : ascii) (s : string) : list string :=
  match s with
  | EmptyString => [EmptyString]
  | String a s' =>
      if Ascii.eqb a sep then EmptyString :: split_on sep s'
      else match split_on sep s' with
           | [] => [String a EmptyString]
           | f :: fs => String a f :: fs
           end
  end.

Definition digit (a : ascii) : option N :=
  let n := N_of_ascii a in
  if (48 <=? n) && (n <=? 57) then Some (n - 48) else None.

Fixpoint parse_digits (acc : N) (s : string) : option N :=
  match s with
  | EmptyString => Some acc
  | String a s' =>
      match digit a with
      | Some d => parse_digits (10 * acc + d) s'
      | None => None
      end
  end.

(** [int(s)] for a string of decimal digits. *)
Definition parse_N (s : string) : option N :=
  match s with
  | EmptyString => None
  | _ => parse_digits 0 s
  end.

(** The fields of a data line. *)
Definition fields (sep l : string) : list string :=
  match sep with
  | String a EmptyString => split_on a l
  | _ => [l]
  end.

(** A recorded line is one the model's line stands for: equal where the
    notebook fixes the text; for a data line, one field per column, the
    step first. *)
Definition agrees (o : out_line) (l : string) : bool :=
  match o with
  | Text s => String.eqb s l
  | Energy prefix => String.prefix prefix l && ends_with " kJ/mol" l
  | Row cols sep at_step =>
      bool_decide (length (fields sep l) = length cols)
      && match cols, fields sep l with
         | Step :: _, f :: _ => bool_decide (parse_N f = Some at_step)
         | _, _ => true
         end
  | Elapsed before after =>
      String.prefix (before +:+ " ") l && ends_with (" " +:+ after) l
  | Shown _ => true
  end.

Fixpoint all_agree (os : list out_line) (ls : list string) : bool :=
  match os, ls with
  | [], [] => true
  | o :: os', l :: ls' => agrees o l && all_agree os' ls'
  | _, _ => false
  end.

(** The step a recorded data line starts with; no step for a line that
    is not a data line. *)
Definition recorded_step (l : string) : option N :=
  match split_on "," l with
  | f :: _ :: _ => parse_N f
  | _ => None
  end.

(** The two header lines of the saved output, character for character:
    [#"Step","Potential Energy (kJ/mole)","Temperature (K)"] after the
    banner of an equilibration, and
    [#"Step","Time (ps)","Potential Energy (kJ/mole)","Temperature (K)","Speed (ns/day)"]
    after the banner of a production run. *)
Definition equilibration_header : string :=
  "#" +:+ dq +:+ "Step" +:+ dq +:+ "," +:+ dq +:+ "Potential Energy (kJ/mole)" +:+ dq
  +:+ "," +:+ dq +:+ "Temperature (K)" +:+ dq.

Definition production_header : string :=
  "#" +:+ dq +:+ "Step" +:+ dq +:+ "," +:+ dq +:+ "Time (ps)" +:+ dq
  +:+ "," +:+ dq +:+ "Potential Energy (kJ/mole)" +:+ dq
  +:+ "," +:+ dq +:+ "Temperature (K)" +:+ dq +:+ "," +:+ dq +:+ "Speed (ns/day)" +:+ dq.

(** What a saved data line shows of its form: the number of its
    comma-separated fields, and the step it starts with. *)
Definition data_line (l : string) : nat * option N :=
  (length (split_on "," l), recorded_step l).

(** The saved lines [from], [from + 1], ..., [count] of them. *)
Definition saved_lines (from count : nat) (c : cell) : list string :=
  take count (drop from (recorded c)).

(** No line of [ls] is the text [s]. *)
Definition never_the_line (s : string) (ls : list string) : bool :=
  forallb (fun l => negb (String.eqb l s)) ls.

(** The texts a run printed; a data line contributes none, its values
    being the engine's. *)
Definition texts (os : list out_line) : list string :=
  omap (fun o => match o with Text s => Some s | _ => None end) os.

(** The events up to the banner line [banner]. *)
Fixpoint until_banner (banner : string) (l : list event) : list event :=
  match l with
  | [] => []
  | Printed (Text s) as e :: l' =>
      if String.eqb s banner then [] else e :: until_banner banner l'
  | e :: l' => e :: until_banner banner l'
  end.

(** The notebook announces its phases on the console. *)
Definition equilibration (l : list event) : list event :=
  until_banner "Running Production..." (from_banner "Equilibrating..." l).

Definition production (l : list event) : list event :=
  from_banner "Running Production..." l.

(** The console reporters a stretch of the log attaches. *)
Definition console_reporters (l : list event) : list Reporter :=
  omap (fun s => match s with
                 | simulation_reporters_append (StateDataReporter _ _ _ _ _ _ _ _ as r) => Some r
                 | _ => None
                 end) (calls l).

Definition steps_called (l : list event) : list N :=
  omap (fun s => match s with simulation_step n => Some n | _ => None end) (calls l).

(** The steps at which the frames of a [Frames] event were written. *)
Definition frames (t : string * N * N * N) : list N :=
  match t with (_, i, c, n) => report_steps i c n end.

(** ** The pipeline *)

Inductive stage := Load | Build | Minimize | Equilibrate | Production | Analyze.

#[global] Instance stage_eq_dec : EqDecision stage.
Proof. solve_decision. Defined.

(** The stage a call belongs to.  [recording] says whether a trajectory
    reporter is attached: stepping with one is the production run
    ("the primary data-collecting simulation phase"), stepping without
    is equilibration.  Imports, prints, reads of the state, reporter
    bookkeeping and clock readings belong to no stage. *)
Definition stage_of (recording : bool) (s : stmt) : option stage :=
  match s with
  | pdb_PDBFile _ | forcefield_ForceField _ => Some Load
  | system_createSystem _ _ | integrator_LangevinIntegrator _ _ _
  | integrator_setConstraintTolerance _ | platform_getPlatformByName _
  | simulation_Simulation | simulation_context_setPositions => Some Build
  | simulation_minimizeEnergy _ => Some Minimize
  | simulation_context_setVelocitiesToTemperature _ => Some Equilibrate
  | simulation_step _ => Some (if recording then Production else Equilibrate)
  | traj_load _ _ | visualize_show_mdtraj | atoms_bonds_to_dataframe
  | bond_length_compute_distances _ | plt_hist _ _ => Some Analyze
  | _ => None
  end.

(** Whether a trajectory reporter is attached after the call. *)
Definition recording_after (recording : bool) (s : stmt) : bool :=
  match s with
  | simulation_reporters_append (DCDReporter _ _) => true
  | simulation_reporters_clear | simulation_Simulation => false
  | _ => recording
  end.

(** The stages a sequence of calls goes through, a stage listed once for
    each stretch of calls that stays in it.  [last] is the stage the
    sequence is in when it starts. *)
Fixpoint stages_from (last : option stage) (recording : bool) (l : list stmt) : list stage :=
  match l with
  | [] => []
  | s :: l' =>
      match stage_of recording s with
      | Some st =>
          if bool_decide (last = Some st)
          then stages_from last (recording_after recording s) l'
          else st :: stages_from (Some st) (recording_after recording s) l'
      | None => stages_from last (recording_after recording s) l'
      end
  end.

Definition stages (l : list stmt) : list stage := stages_from None false l.


(** The statements of the notebook in document order, the lines that are
    not Python left out. *)
Definition document (cells : list cell) : list stmt :=
  concat (map (fun c => written (source c)) cells).

(** ** Atom selections *)

(** The list literal the notebook assigns to [x], if it assigns one. *)
Fixpoint assigned_list (x : string) (body : list stmt) : option (list N) :=
  match body with
  | [] => None
  | assign_list y l :: body' => if String.eqb y x then Some l else assigned_list x body'
  | _ :: body' => assigned_list x body'
  end.

Definition bond_indices : option (list N) := assigned_list "bond_indices" (document notebook).
Definition phi_indices : option (list N) := assigned_list "phi_indices" (document notebook).

(** Every index names an atom of a molecule of [n_atoms] atoms. *)
Definition in_range (n_atoms : N) (selection : list N) : bool :=
  forallb (fun i => i <? n_atoms) selection.

(** ** The temperatures of a run *)

(** The temperature the velocities of the current simulation object were
    drawn at, and the target temperature of its integrator. *)
Definition temperatures (k : Kernel) : option (Quantity * Quantity) :=
  match the_simulation k with
  | inr sim => (fun T => (T, temperature (integrator sim))) <$> velocities sim
  | inl _ => None
  end.

Definition current_simulation (k : Kernel) : option Simulation :=
  match the_simulation k with
  | inr sim => Some sim
  | inl _ => None
  end.

(** ** The saved session *)


(** ** A collaborator that fails *)

(** The structure file of the butane run is missing: [app.PDBFile] raises
    for it, and nothing else fails. *)
Definition missing_butane_pdb : Kernel -> stmt -> option string :=
  fun _ s =>
    match s with
    | pdb_PDBFile path =>
        if String.eqb path "data/butane.pdb" then Some "FileNotFoundError" else None
    | _ => None
    end.

(** ** Making the call *)

(** The statement finds its names and its objects in [k], so that its
    call is made. *)
Definition ready (s : stmt) (k : Kernel) : bool :=
  match (_ ← bound (reads s); prepare s) k with
  | inr _ => true
  | inl _ => false
  end.

(** The kernel right after the call of [s] was made in [k]. *)
Definition called (s : stmt) (k : Kernel) : Kernel := emit [Called s] k.

(** ** Names from cell to cell *)

(** The names a statement binds when it completes: its assignment
    targets and the names it imports.  A call on an object binds
    nothing. *)
Definition binds (s : stmt) : list string :=
  match s with
  | import_as _ x => [x]
  | from_import _ xs => xs
  | pdb_PDBFile _ => ["pdb"]
  | forcefield_ForceField _ => ["forcefield"]
  | system_createSystem _ _ => ["system"]
  | integrator_LangevinIntegrator _ _ _ => ["integrator"]
  | platform_getPlatformByName _ => ["platform"]
  | simulation_Simulation => ["simulation"]
  | st_getState _ _ => ["st"]
  | assign_time target => [target]
  | traj_load _ _ => ["traj"]
  | visualize_show_mdtraj => ["visualize"]
  | atoms_bonds_to_dataframe => ["atoms"; "bonds"]
  | assign_list target _ => [target]
  | bond_length_compute_distances _ => ["bond_length"]
  | plt_hist _ _ => ["bondcounts"; "binedges"; "otherstuff"]
  | _ => []
  end.

(** The names a body reads before it has bound them, given the names
    [have] bound already: what it needs from the cells run before. *)
Fixpoint needs_from (have : list string) (body : list stmt) : list string :=
  match body with
  | [] => []
  | s :: body' =>
      filter (fun x => x ∉ have) (reads s) ++ needs_from (binds s ++ have) body'
  end.

Definition needs (body : list stmt) : list string := needs_from [] body.

(** The names a list of actions binds. *)
Definition bound_names (actions : list action) : list string :=
  omap (fun a => match a with Bind x _ => Some x | Emit _ => None end) actions.

(** The events a list of actions emits. *)
Definition emitted (actions : list action) : list event :=
  omap (fun a => match a with Emit e => Some e | Bind _ _ => None end) actions.

(** What a statement that completes does to the simulation object that
    [simulation] names.  The statements left out ([None]) are those that
    bind the name, [setPositions], which passes the object the positions
    of another one, and [setConstraintTolerance], which acts on an
    integrator the object may share. *)
Definition on_simulation (s : stmt) (sim : Simulation) : option Simulation :=
  if bool_decide ("simulation" ∈ binds s) then None
  else match s with
       | simulation_minimizeEnergy maxIterations => Some (with_minimization maxIterations sim)
       | simulation_reporters_append r =>
           Some (with_reporters (reporters sim ++ [(r, false)]) sim)
       | simulation_reporters_clear => Some (with_reporters [] sim)
       | simulation_context_setVelocitiesToTemperature T => Some (with_velocities T sim)
       | simulation_step n => Some (snd (stepped n sim))
       | simulation_context_setPositions | integrator_setConstraintTolerance _ => None
       | _ => Some sim
       end.

(** A body, statement after statement. *)
Fixpoint through (body : list stmt) (sim : Simulation) : option Simulation :=
  match body with
  | [] => Some sim
  | s :: body' => on_simulation s sim ≫= through body'
  end.

(** The kernel once the ethane run has equilibrated: the cells up to and
    including the equilibration cell, with collaborators that never
    fail. *)
Definition after_equilibration : Kernel :=
  fst (run_all flawless [cell_5; cell_7; cell_11; cell_13; cell_16; cell_19; cell_24] fresh).

(** The trajectory files the analysis loads, each with its topology file. *)
Definition loads (body : list stmt) : list (string * string) :=
  omap (fun s => match s with traj_load file top => Some (file, top) | _ => None end) body.

(** ** Reading saved numbers *)

(** A decimal numeral of the saved output: [mantissa / 10^places]. *)
Record decimal := { mantissa : N; places : nat }.

Definition parse_decimal (s : string) : option decimal :=
  match split_on "." s with
  | [whole] => m ← parse_N whole; Some {| mantissa := m; places := 0 |}
  | [whole; fraction] =>
      m ← parse_N (whole +:+ fraction);
      Some {| mantissa := m; places := String.length fraction |}
  | _ => None
  end.

Definition pow10 (n : nat) : N := 10 ^ N.of_nat n.

(** [a < b] for decimals. *)
Definition decimal_ltb (a b : decimal) : bool :=
  mantissa a * pow10 (places b) <? mantissa b * pow10 (places a).

(** What is left of [s] after the prefix [p]. *)
Fixpoint strip_prefix (p s : string) : option string :=
  match p, s with
  | EmptyString, _ => Some s
  | String a p', String b s' => if Ascii.eqb a b then strip_prefix p' s' else None
  | String _ _, EmptyString => None
  end.

(** The numbers of the saved lines that start with [prefix]: the first
    word after it. *)
Definition saved_numbers (prefix : string) (lines : list string) : list decimal :=
  omap (fun l => rest ← strip_prefix prefix l;
                 match split_on " " rest with
                 | word :: _ => parse_decimal word
                 | [] => None
                 end) lines.

(** The cells that minimize the energy. *)
Definition minimizing (c : cell) : bool :=
  existsb (fun s => match s with simulation_minimizeEnergy _ => true | _ => false end)
          (written (source c)).

(** The saved output of a cell shows one energy before and one after
    minimization, the second lower than the first. *)
Definition saved_energy_decreased (c : cell) : bool :=
  match saved_numbers "Potential energy before minimization is " (recorded c),
        saved_numbers "Potential energy after minimization is " (recorded c) with
  | [before], [after] => decimal_ltb after before
  | _, _ => false
  end.

(** * Properties *)

(** ** The reporting schedule *)

Lemma report_steps_length i c n :
  length (report_steps i c n) = N.to_nat ((c + n) / i - c / i).
Proof. unfold report_steps. by rewrite length_map, length_seq. Qed.

(** A reporter of interval [i] reports at exactly the multiples of [i]
    the step counter passes. *)
Lemma report_steps_spec i c n s :
  0 < i -> s ∈ report_steps i c n <-> (c < s <= c + n /\ s mod i = 0).
Proof.
  intros Hi. unfold report_steps.
  rewrite list_elem_of_In, in_map_iff.
  pose proof (N.div_mod c i ltac:(lia)) as Hc.
  pose proof (N.mod_lt c i ltac:(lia)) as Hcr.
  pose proof (N.div_mod (c + n) i ltac:(lia)) as Hn.
  pose proof (N.mod_lt (c + n) i ltac:(lia)) as Hnr.
  assert (c / i <= (c + n) / i) as Hle by (apply N.Div0.div_le_mono; lia).
  set (q1 := c / i) in *. set (q2 := (c + n) / i) in *.
  set (r1 := c mod i) in *. set (r2 := (c + n) mod i) in *.
  split.
  - intros (k & <- & Hk). apply in_seq in Hk.
    assert (q1 + 1 <= N.of_nat k <= q2) as [Hk1 Hk2] by lia.
    assert ((q1 + 1) * i <= N.of_nat k * i) by (apply N.mul_le_mono_r; lia).
    assert (N.of_nat k * i <= q2 * i) by (apply N.mul_le_mono_r; lia).
    split; [lia | apply N.Div0.mod_mul].
  - intros [[Hlo Hhi] Hm]. exists (N.to_nat (s / i)).
    pose proof (N.div_mod s i ltac:(lia)) as Hs. rewrite Hm, N.add_0_r in Hs.
    split; [rewrite N2Nat.id; lia |].
    apply in_seq.
    assert (q1 < s / i) as Hq1.
    { apply N.lt_nge. intros Hge.
      assert (s / i * i <= q1 * i) by (apply N.mul_le_mono_r; lia). lia. }
    assert (s / i <= q2) as Hq2.
    { apply N.le_ngt. intros Hlt.
      assert ((q2 + 1) * i <= s / i * i) by (apply N.mul_le_mono_r; lia). lia. }
    lia.
Qed.

(** ** Runs that stop *)

Section Stopping.

Context {E : Type} (raises : Kernel -> stmt -> option E).

Lemma run_app pre post k :
  run raises (pre ++ post) k =
  match run raises pre k with
  | (k', None) => run raises post k'
  | stopped => stopped
  end.
Proof.
  induction pre as [|s pre IH] in k |- *; simpl; [done |].
  destruct (exec raises s k) as [k' [x|]]; [done | apply IH].
Qed.

(** A run that stops does so at one statement, after the statements
    before it have completed and before any statement after it. *)
Lemma run_stopped body k k' x :
  run raises body k = (k', Some x) <->
  exists pre s post k1,
    body = pre ++ s :: post /\ run raises pre k = (k1, None)
    /\ exec raises s k1 = (k', Some x).
Proof.
  split.
  - induction body as [|s body IH] in k |- *; simpl; [done |].
    destruct (exec raises s k) as [k1 [y|]] eqn:Hs.
    + intros [= <- <-]. by exists [], s, body, k.
    + intros (pre & s' & post & k2 & -> & Hpre & Hs')%IH.
      exists (s :: pre), s', post, k2. simpl. by rewrite Hs.
  - intros (pre & s & post & k1 & -> & Hpre & Hs).
    rewrite run_app, Hpre. simpl. by rewrite Hs.
Qed.

(** A statement stops with a collaborator's failure exactly when its
    call was made and the collaborator raised that failure. *)
Lemma exec_raised s k k' e :
  exec raises s k = (k', Some (Raised e)) <->
  ready s k = true /\ failure raises k s = Some e /\ k' = called s k.
Proof.
  unfold exec, ready, called.
  destruct ((_ ← bound (reads s); prepare s) k) as [p|effect].
  - split; [done | by intros [? _]].
  - destruct (failure raises k s) as [e'|].
    + split; [by intros [= <- <-] | by intros (_ & [= <-] & ->)].
    + split; [done | by intros (_ & ? & _)].
Qed.

Lemma run_all_app before after k :
  run_all raises (before ++ after) k =
  match run_all raises before k with
  | (k', None) => run_all raises after k'
  | stopped => stopped
  end.
Proof.
  induction before as [|c before IH] in k |- *; simpl; [done |].
  destruct (run_cell raises c k) as [k' [x|]]; [done | apply IH].
Qed.

Lemma run_all_stopped cells k k' x :
  run_all raises cells k = (k', Some x) <->
  exists before c after k0,
    cells = before ++ c :: after /\ run_all raises before k = (k0, None)
    /\ run_cell raises c k0 = (k', Some x).
Proof.
  split.
  - induction cells as [|c cells IH] in k |- *; simpl; [done |].
    destruct (run_cell raises c k) as [k1 [y|]] eqn:Hc.
    + intros [= <- <-]. by exists [], c, cells, k.
    + intros (before & c' & after & k2 & -> & Hb & Hc')%IH.
      exists (c :: before), c', after, k2. simpl. by rewrite Hc.
  - intros (before & c & after & k0 & -> & Hb & Hc).
    rewrite run_all_app, Hb. simpl. by rewrite Hc.
Qed.

End Stopping.

(** ** Failing collaborators only cut a run short *)

Lemma perform_log actions k : log k `prefix_of` log (perform actions k).
Proof.
  unfold perform. induction actions as [|a actions IH] in k |- *; simpl; [done |].
  etrans; [| apply IH]. destruct a; simpl; [done | by apply prefix_app_r].
Qed.

Section Prefix.

Context {E : Type} (raises : Kernel -> stmt -> option E).

Lemma exec_log s k : log k `prefix_of` log (fst (exec raises s k)).
Proof.
  unfold exec. destruct ((_ ← bound (reads s); prepare s) k) as [p|actions]; [done |].
  destruct (failure raises k s); simpl; [by apply prefix_app_r |].
  etrans; [| apply perform_log]. by apply prefix_app_r.
Qed.

Lemma run_log body k : log k `prefix_of` log (fst (run raises body k)).
Proof.
  induction body as [|s body IH] in k |- *; simpl; [done |].
  pose proof (exec_log s k) as Hs.
  destruct (exec raises s k) as [k' [x|]]; [done |].
  etrans; [apply Hs | apply IH].
Qed.



End Prefix.

Section Flawless.

Context {E : Type} (raises : Kernel -> stmt -> option E).

(** A statement that completes does what it does with collaborators
    that never fail; one that stops leaves a log that theirs extends. *)
Lemma exec_flawless s k :
  match exec raises s k with
  | (k', None) => exec flawless s k = (k', None)
  | (k', Some _) => log k' `prefix_of` log (fst (exec flawless s k))
  end.
Proof.
  unfold exec, failure, flawless.
  destruct ((_ ← bound (reads s); prepare s) k) as [p|actions]; [done |].
  destruct (calls_out s); [destruct (raises k s) |]; simpl; try done.
  apply perform_log.
Qed.

Lemma run_flawless body k :
  log (fst (run raises body k)) `prefix_of` log (fst (run flawless body k)).
Proof.
  induction body as [|s body IH] in k |- *; simpl; [done |].
  pose proof (exec_flawless s k) as Hs.
  destruct (exec raises s k) as [k' [x|]].
  - simpl. etrans; [apply Hs |].
    destruct (exec flawless s k) as [k2 [y|]]; [done | apply run_log].
  - rewrite Hs. apply IH.
Qed.



End Flawless.

(** ** Reading a prefix of a log *)




(** ** What the butane cell relies on *)

(** The butane cell reads the clock but does not import [time]: in a
    kernel that ran only the imports of the first cell it stops with
    [NameError] after equilibration, before the production run. *)
Example butane_cell_needs_the_time_import :
  let r := run_all flawless [cell_5; cell_32] fresh in
  snd r = Some (Python (NameError "time"))
  /\ stages (calls (log (fst r))) = [Load; Build; Minimize; Equilibrate].
Proof. split; vm_compute; reflexivity. Qed.

(** * The specification, statement by statement *)

(** C3 (the code falls short of this claim).  The claim: every atom
    selection used for a measurement has the shape of its measurement,
    two indices for a bond length and four for a torsion, all of them
    indices of atoms of the molecule.  The notebook's bond selection is
    [[0, 4]]: two indices, in range for every molecule of more than four
    atoms (ethane has eight).  Its torsion selection, [phi_indices], is
    the empty list, not a list of four indices, and the cell that holds
    it is not Python: running it raises [SyntaxError] before anything in
    it is run, whatever the collaborators do. *)
Theorem torsion_selection_left_empty :
  bond_indices = Some [0; 4]
  /\ length <$> bond_indices = Some 2%nat
  /\ (forall n_atoms, in_range n_atoms [0; 4] = true <-> 4 < n_atoms)
  /\ phi_indices = Some []
  /\ length <$> phi_indices = Some 0%nat
  /\ statements (source cell_49) = None
  /\ (forall E (raises : Kernel -> stmt -> option E) k,
        run_cell raises cell_49 k = (k, Some (Python SyntaxError))).
Proof.
  repeat split; try reflexivity.
  - unfold in_range. simpl. rewrite !andb_true_r, andb_true_iff, !N.ltb_lt. lia.
  - unfold in_range. simpl. rewrite !andb_true_r, andb_true_iff, !N.ltb_lt. lia.
Qed.

(** C9.  In the ethane run the velocities are drawn at 150 K while the
    integrator's target temperature is 298.15 K; in the butane run they
    are drawn at 298 K while the target is 298.15 K.  In both runs the
    two temperatures are in kelvin and differ. *)
Theorem velocities_not_drawn_at_target_temperature :
  temperatures after_ethane
  = Some (unit.mul (Float 150.0) unit.kelvin, unit.mul (Float 298.15) unit.kelvin)
  /\ num_eqb (Float 150.0) (Float 298.15) = false
  /\ temperatures after_butane
     = Some (unit.mul (Int 298) unit.kelvin, unit.mul (Float 298.15) unit.kelvin)
  /\ num_eqb (Int 298) (Float 298.15) = false.
Proof. repeat apply conj; vm_compute; reflexivity. Qed.

(** C10.  The butane production run calls [simulation.step] once, for
    20,000,000 steps, on an integrator whose step is 2 femtoseconds:
    40 nanoseconds of simulated time.  The step counter goes from 5,000
    (the equilibration) to 20,005,000.  Two reporters are attached
    meanwhile: a console reporter of interval 500,000 and a trajectory
    reporter of interval 100 on [butane_sim.dcd].  The frames written
    are at exactly the multiples of 100 the counter passes, 200,000 of
    them; the console lines are at exactly the multiples of 500,000. *)
Theorem butane_production_run :
  steps_called (production butane_events) = [20000000]
  /\ (fun sim => stepSize (integrator sim)) <$> current_simulation after_butane
     = Some (unit.mul (Float 2.0) unit.femtoseconds)
  /\ unit.value_in_unit (unit.times 20000000 (unit.mul (Float 2.0) unit.femtoseconds))
       unit.nanoseconds = Some 40%float
  /\ steps_called (until_banner "Running Production..." butane_events) = [5000]
  /\ currentStep <$> current_simulation after_butane = Some (5000 + 20000000)
  /\ (fun sim => map fst (reporters sim)) <$> current_simulation after_butane
     = Some [StateDataReporter stdout 500000 true true true true true ",";
             DCDReporter "butane_sim.dcd" 100]
  /\ trajectories butane_events = [("butane_sim.dcd", 100, 5000, 20000000)]
  /\ (forall s, s ∈ frames ("butane_sim.dcd", 100, 5000, 20000000)
                <-> (5000 < s <= 5000 + 20000000 /\ s mod 100 = 0))
  /\ N.of_nat (length (frames ("butane_sim.dcd", 100, 5000, 20000000))) = 200000
  /\ rows (production butane_events) = report_steps 500000 5000 20000000
  /\ (forall s, s ∈ rows (production butane_events)
                <-> (5000 < s <= 5000 + 20000000 /\ s mod 500000 = 0)).
Proof.
  assert (rows (production butane_events) = report_steps 500000 5000 20000000) as Hrows
    by (vm_compute; reflexivity).
  split; [vm_compute; reflexivity |].
  split; [vm_compute; reflexivity |].
  split; [vm_compute; reflexivity |].
  split; [vm_compute; reflexivity |].
  split; [vm_compute; reflexivity |].
  split; [vm_compute; reflexivity |].
  split; [vm_compute; reflexivity |].
  split; [intros s; apply report_steps_spec; lia |].
  split; [unfold frames; rewrite report_steps_length, N2Nat.id; reflexivity |].
  split; [exact Hrows |].
  intros s. rewrite Hrows. apply report_steps_spec. lia.
Qed.

(** C5.  The console lines are not of the form
    [Step,PotentialEnergy(kJ/mole),Temperature(K)] and
    [Step,Time(ps),PotentialEnergy(kJ/mole),Temperature(K),Speed(ns/day)]:
    the header lines the reporters of the notebook write differ from
    these two texts (they start with a comment mark, quote every title
    and keep the blanks inside the titles), no text the runs print is
    one of the two, and no line saved with any cell of the notebook is
    one of the two. *)
Lemma console_lines_are_not_the_unquoted_texts :
  header_line (StateDataReporter stdout 100 true false true true false ",")
  <> "Step,PotentialEnergy(kJ/mole),Temperature(K)"
  /\ header_line (StateDataReporter stdout 250000 true true true true true ",")
     <> "Step,Time(ps),PotentialEnergy(kJ/mole),Temperature(K),Speed(ns/day)"
  /\ never_the_line "Step,PotentialEnergy(kJ/mole),Temperature(K)"
       (texts (console (log after_butane)) ++ concat (recorded <$> notebook)) = true
  /\ never_the_line "Step,Time(ps),PotentialEnergy(kJ/mole),Temperature(K),Speed(ns/day)"
       (texts (console (log after_butane)) ++ concat (recorded <$> notebook)) = true.
Proof.
  split; [apply String.eqb_neq; vm_compute; reflexivity |].
  split; [apply String.eqb_neq; vm_compute; reflexivity |].
  split; vm_compute; reflexivity.
Qed.

(** C5, amended.  In the ethane and in the butane run alike, the
    console reporter attached for equilibration selects the columns
    step, potential energy and temperature, separated by commas, and its
    header line is [#"Step","Potential Energy (kJ/mole)","Temperature (K)"];
    the one attached for production selects step, time, potential
    energy, temperature and speed, and its header line is
    [#"Step","Time (ps)","Potential Energy (kJ/mole)","Temperature (K)","Speed (ns/day)"].
    After the banner of a phase the console shows that header line once
    and then one data line for each multiple of the reporter's interval
    that the step counter passes, in increasing order.  The saved output
    shows the same: each header line character for character, then data
    lines of three (equilibration) or five (production) comma-separated
    fields, the first of them the step; and every console line of the
    two runs agrees with the line saved for it. *)
Theorem console_lines_as_saved :
  (let form := fun r => (columns r, separator_of r, interval_of r, header_line r) in
   let equilibrating := [Step; PotentialEnergy; Temperature] in
   let producing := [Step; Time; PotentialEnergy; Temperature; Speed] in
   form <$> console_reporters (equilibration ethane_events)
   = [(equilibrating, ",", 100, equilibration_header)]
   /\ form <$> console_reporters (production ethane_events)
      = [(producing, ",", 250000, production_header)]
   /\ form <$> console_reporters (equilibration butane_events)
      = [(equilibrating, ",", 250, equilibration_header)]
   /\ form <$> console_reporters (production butane_events)
      = [(producing, ",", 500000, production_header)]
   /\ console (equilibration ethane_events)
      = Text equilibration_header :: (Row equilibrating "," <$> report_steps 100 0 2500)
   /\ console (production ethane_events)
      = Text production_header
        :: (Row producing "," <$> report_steps 250000 2500 10000000)
        ++ [Text "Done!"; Elapsed "Time required for simulation:" "seconds"]
   /\ console (equilibration butane_events)
      = Text equilibration_header :: (Row equilibrating "," <$> report_steps 250 0 5000)
   /\ console (production butane_events)
      = Text production_header
        :: (Row producing "," <$> report_steps 500000 5000 20000000)
        ++ [Text "Done!"; Elapsed "Time required for simulation:" "seconds"])
  /\ (saved_lines 0 2 cell_24 = ["Equilibrating..."; equilibration_header]
      /\ data_line <$> saved_lines 2 25 cell_24
         = (fun s => (3%nat, Some s)) <$> report_steps 100 0 2500
      /\ length (recorded cell_24) = 27%nat)
  /\ (saved_lines 0 2 cell_28 = ["Running Production..."; production_header]
      /\ data_line <$> saved_lines 2 40 cell_28
         = (fun s => (5%nat, Some s)) <$> report_steps 250000 2500 10000000
      /\ length (recorded cell_28) = 44%nat)
  /\ (saved_lines 3 2 cell_32 = ["Equilibrating..."; equilibration_header]
      /\ data_line <$> saved_lines 5 20 cell_32
         = (fun s => (3%nat, Some s)) <$> report_steps 250 0 5000
      /\ saved_lines 25 2 cell_32 = ["Running Production..."; production_header]
      /\ data_line <$> saved_lines 27 40 cell_32
         = (fun s => (5%nat, Some s)) <$> report_steps 500000 5000 20000000
      /\ length (recorded cell_32) = 69%nat)
  /\ all_agree (console (log after_butane)) (concat (recorded <$> executed)) = true
  /\ (forall i c n s, 0 < i -> s ∈ report_steps i c n <-> (c < s <= c + n /\ s mod i = 0)).
Proof.
  split; [repeat apply conj; vm_compute; reflexivity |].
  do 3 (split; [repeat apply conj; vm_compute; reflexivity |]).
  split; [vm_compute; reflexivity |].
  intros i c n s. apply report_steps_spec.
Qed.


(** C8.  A "Run All" of any cells ends with the failure [e] of a
    collaborator exactly when: the cells before some cell completed, so
    did the statements of that cell before some statement [s], [s]
    found its names and objects, its call was made, and the collaborator
    raised [e] there.  The run then ends with [e] itself, and the kernel
    is left as that one call found it, with the call logged once:
    nothing of the statement is retried, and no statement or cell after
    it is run.  The notebook cannot look into [e]: [E] is any type. *)
Theorem collaborator_failure_surfaces_unchanged
    {E : Type} (raises : Kernel -> stmt -> option E)
    (cells : list cell) (k k' : Kernel) (e : E) :
  run_all raises cells k = (k', Some (Raised e)) <->
  exists before c after pre s post k0 k1,
    cells = before ++ c :: after
    /\ run_all raises before k = (k0, None)
    /\ statements (source c) = Some (pre ++ s :: post)
    /\ run raises pre k0 = (k1, None)
    /\ ready s k1 = true
    /\ failure raises k1 s = Some e
    /\ k' = called s k1.
Proof.
  rewrite run_all_stopped. split.
  - intros (before & c & after & k0 & -> & Hbefore & Hc).
    unfold run_cell in Hc. destruct (statements (source c)) as [body|] eqn:Hbody; [| done].
    apply run_stopped in Hc as (pre & s & post & k1 & -> & Hpre & Hs).
    apply exec_raised in Hs as (Hready & Hfail & ->).
    by exists before, c, after, pre, s, post, k0, k1.
  - intros (before & c & after & pre & s & post & k0 & k1
            & -> & Hbefore & Hbody & Hpre & Hready & Hfail & ->).
    exists before, c, after, k0. repeat split; [done |].
    unfold run_cell. rewrite Hbody. apply run_stopped.
    exists pre, s, post, k1. repeat split; [done |].
    by apply exec_raised.
Qed.

(** With the butane structure file missing, "Run All" completes the
    ethane run, makes the one call [app.PDBFile('data/butane.pdb')], and
    ends with the loader's failure. *)
Lemma missing_structure_file_stops_the_run :
  run_all missing_butane_pdb notebook fresh
  = (called (pdb_PDBFile "data/butane.pdb") after_ethane, Some (Raised "FileNotFoundError")).
Proof.
  apply (proj2 (collaborator_failure_surfaces_unchanged missing_butane_pdb notebook fresh
                  (called (pdb_PDBFile "data/butane.pdb") after_ethane) "FileNotFoundError")).
  exists ethane_run, cell_32,
    [cell_35; cell_37; cell_38; cell_40; cell_42; cell_45; cell_47; cell_49; cell_51],
    [], (pdb_PDBFile "data/butane.pdb"),
    (match statements (source cell_32) with Some (_ :: post) => post | _ => [] end),
    after_ethane, after_ethane.
  repeat apply conj; vm_compute; reflexivity.
Defined.

(** * Further properties of the notebook *)

(** ** The saved session *)

(** X7.  Every cell that calls [minimizeEnergy] was run, and its saved output
    shows a lower potential energy after the minimization than before:
    4.3899... below 4.4678... kJ/mol for ethane, 5.2957... below
    5.7975... kJ/mol for butane. *)
Theorem saved_minimizations_lowered_the_energy :
  filter (fun c => minimizing c) notebook = [cell_19; cell_32]
  /\ forallb (fun c => bool_decide (is_Some (execution_count c)) && saved_energy_decreased c)
       (filter (fun c => minimizing c) notebook) = true
  /\ saved_numbers "Potential energy before minimization is " (recorded cell_19)
     = [{| mantissa := 4467818271065182; places := 15 |}]
  /\ saved_numbers "Potential energy after minimization is " (recorded cell_19)
     = [{| mantissa := 4389967724953268; places := 15 |}]
  /\ saved_numbers "Potential energy before minimization is " (recorded cell_32)
     = [{| mantissa := 5797528692127868; places := 15 |}]
  /\ saved_numbers "Potential energy after minimization is " (recorded cell_32)
     = [{| mantissa := 5295784483017486; places := 15 |}].
Proof.
  repeat apply conj; vm_compute; reflexivity.
Qed.

(** X9.  The analysis loads one trajectory, [ethane_sim.dcd], with the
    topology of [data/ethane.pdb]: the file the ethane production run
    writes, from a simulation built on that same structure file.  The
    run writes 100,000 frames to it, at the multiples of 100 after the
    2,500 equilibration steps (2,600 up to 10,002,500): no frame of the
    equilibration and no frame of the starting structure.  The butane
    trajectory is written and never loaded. *)
Theorem analysis_loads_the_ethane_production :
  loads (document notebook) = [("ethane_sim.dcd", "data/ethane.pdb")]
  /\ trajectories ethane_events = [("ethane_sim.dcd", 100, 2500, 10000000)]
  /\ topology <$> current_simulation after_ethane = Some "data/ethane.pdb"
  /\ positions <$> current_simulation after_ethane = Some (Some "data/ethane.pdb")
  /\ N.of_nat (length (frames ("ethane_sim.dcd", 100, 2500, 10000000))) = 100000
  /\ (forall s, s ∈ frames ("ethane_sim.dcd", 100, 2500, 10000000)
                <-> (2500 < s <= 10002500 /\ s mod 100 = 0))
  /\ (fun t => t.1.1.1) <$> trajectories butane_events = ["butane_sim.dcd"]
  /\ "butane_sim.dcd" ∉ (loads (document notebook)).*1.
Proof.
  do 4 (split; [vm_compute; reflexivity |]).
  split; [unfold frames; rewrite report_steps_length, N2Nat.id; reflexivity |].
  split; [intros s; unfold frames; rewrite report_steps_spec by lia;
          by replace (2500 + 10000000) with 10002500 by reflexivity |].
  split; [vm_compute; reflexivity |].
  replace ((loads (document notebook)).*1) with ["ethane_sim.dcd"]
    by (vm_compute; reflexivity).
  intros H%list_elem_of_singleton. discriminate H.
Qed.

(** ** Who can stop a run *)

Section PythonErrors.

Context {E : Type} (raises : Kernel -> stmt -> option E).

(** Python's own exceptions depend on the kernel only: a statement that
    stops with one, or completes, does the same with collaborators that
    never fail. *)
Lemma exec_same_as_flawless s k :
  match exec raises s k with
  | (k', None) => exec flawless s k = (k', None)
  | (k', Some (Python p)) => exec flawless s k = (k', Some (Python p))
  | (_, Some (Raised _)) => True
  end.
Proof.
  unfold exec, failure, flawless.
  destruct ((_ ← bound (reads s); prepare s) k) as [p|actions]; [done |].
  destruct (calls_out s); [destruct (raises k s) |]; done.
Qed.

Lemma run_same_as_flawless body k :
  match run raises body k with
  | (k', None) => run flawless body k = (k', None)
  | (k', Some (Python p)) => run flawless body k = (k', Some (Python p))
  | (_, Some (Raised _)) => True
  end.
Proof.
  induction body as [|s body IH] in k |- *; simpl; [done |].
  pose proof (exec_same_as_flawless s k) as Hs.
  destruct (exec raises s k) as [k' [[p|e]|]]; [by rewrite Hs | done |].
  rewrite Hs. apply IH.
Qed.

Lemma run_all_same_as_flawless cells k :
  match run_all raises cells k with
  | (k', None) => run_all flawless cells k = (k', None)
  | (k', Some (Python p)) => run_all flawless cells k = (k', Some (Python p))
  | (_, Some (Raised _)) => True
  end.
Proof.
  induction cells as [|c cells IH] in k |- *; simpl; [done |].
  assert (match run_cell raises c k with
          | (k', None) => run_cell flawless c k = (k', None)
          | (k', Some (Python p)) => run_cell flawless c k = (k', Some (Python p))
          | (_, Some (Raised _)) => True
          end) as Hc.
  { unfold run_cell. destruct (statements (source c)); [apply run_same_as_flawless | done]. }
  destruct (run_cell raises c k) as [k' [[p|e]|]]; [by rewrite Hc | done |].
  rewrite Hc. apply IH.
Qed.

(** Where collaborators that never fail complete, failing ones complete
    alike or stop with a failure of their own. *)
Lemma completes_or_raised cells k k_end :
  run_all flawless cells k = (k_end, None) ->
  match run_all raises cells k with
  | (k', None) => k' = k_end
  | (_, Some (Raised _)) => True
  | (_, Some (Python _)) => False
  end.
Proof.
  intros Hrun. pose proof (run_all_same_as_flawless cells k) as H.
  destruct (run_all raises cells k) as [k' [[p|e]|]]; [| done |];
    rewrite Hrun in H; congruence.
Qed.

End PythonErrors.

(** X1.  Run top to bottom in a fresh kernel, the cells of the two simulation
    runs find every name they read, bound to the kind of object they
    use: Python raises nothing.  Whatever the collaborators do, the runs
    either complete, leaving the kernel the saved session left, or stop
    with a failure a collaborator raised. *)
Theorem only_a_collaborator_stops_the_runs
    {E : Type} (raises : Kernel -> stmt -> option E) :
  match run_all raises (ethane_run ++ butane_run) fresh with
  | (k, None) => k = after_butane
  | (_, Some (Raised _)) => True
  | (_, Some (Python _)) => False
  end.
Proof.
  apply completes_or_raised. vm_compute. reflexivity.
Qed.

(** ** Names from cell to cell *)

Lemma bound_inl xs k p :
  bound xs k = inl p -> exists x, x ∈ xs /\ p = NameError x /\ ns k !! x = None.
Proof.
  induction xs as [|y xs IH]; simpl; [done |].
  unfold mbind, lookup_bind, name. destruct (ns k !! y) eqn:Hy.
  - intros (x & ? & ? & ?)%IH. exists x. by rewrite elem_of_cons; auto.
  - intros [= <-]. exists y. by rewrite elem_of_cons; auto.
Qed.

Lemma bound_inr xs k u :
  bound xs k = inr u -> forall x, x ∈ xs -> is_Some (ns k !! x).
Proof.
  induction xs as [|y xs IH]; simpl; [by intros _ x ?%elem_of_nil |].
  unfold mbind, lookup_bind, name. destruct (ns k !! y) eqn:Hy; [| done].
  intros Hxs x [->|?]%elem_of_cons; [by rewrite Hy | by apply IH].
Qed.

Lemma perform_ns actions k x :
  ns (perform actions k) !! x = None <-> (ns k !! x = None /\ x ∉ bound_names actions).
Proof.
  unfold perform. induction actions as [|a actions IH] in k |- *; simpl.
  - split; [by intros ?; split; [| apply not_elem_of_nil] | by intros [? _]].
  - rewrite IH. destruct a as [y v|e]; simpl.
    + rewrite not_elem_of_cons, lookup_insert_None. intuition congruence.
    + done.
Qed.

Lemma perform_log_emitted actions k :
  log (perform actions k) = log k ++ emitted actions.
Proof.
  unfold perform. induction actions as [|a actions IH] in k |- *; simpl.
  - by rewrite app_nil_r.
  - rewrite IH. destruct a; simpl; [done | by rewrite <- app_assoc].
Qed.

(** The unfolding of the typed lookups, for case analysis. *)
Ltac unfold_lookups :=
  unfold the_pdb, the_forcefield, the_system, the_integrator, the_platform,
    the_simulation, name, fail, mbind, lookup_bind, mret, lookup_ret in *.

(** A reporter writes console lines and frames, nothing else. *)
Lemma report_events c n rb e :
  e ∈ fst (report c n rb) -> match e with Called _ => False | _ => True end.
Proof.
  destruct rb as [[f i st ti pe te sp sep|file i] started]; simpl.
  - destruct (report_steps i c n) as [|a due]; simpl; [by intros ?%elem_of_nil |].
    intros [He|He]%elem_of_app.
    + destruct started; [by apply elem_of_nil in He |].
      apply list_elem_of_singleton in He. by subst.
    + apply elem_of_cons in He as [->|He]; [done |].
      apply list_elem_of_In, in_map_iff in He as (? & <- & _). done.
  - intros ->%list_elem_of_singleton. done.
Qed.

Lemma stepped_events n sim e :
  e ∈ fst (stepped n sim) -> match e with Called _ => False | _ => True end.
Proof.
  unfold stepped. simpl. rewrite list_elem_of_In, in_concat.
  intros (l & Hl & He). apply in_map_iff in Hl as (r & <- & Hr).
  apply in_map_iff in Hr as (rb & <- & _).
  eapply report_events. apply list_elem_of_In, He.
Qed.

Lemma bound_names_emits es acts : bound_names (map Emit es ++ acts) = bound_names acts.
Proof.
  unfold bound_names. rewrite omap_app.
  replace (omap _ (map Emit es)) with (@nil string); [done |].
  induction es; simpl; done.
Qed.

Lemma bound_names_imports m xs :
  bound_names (map (fun x => Bind x (Imported m x)) xs) = xs.
Proof. induction xs as [|x xs IH]; simpl; [done | by f_equal]. Qed.

(** Case analysis on the objects a statement found: [H] says that its
    lookups succeeded. *)
Ltac lookup_cases H :=
  repeat match type of H with
         | context [ns ?k !! ?x] =>
             let E := fresh "E" in
             destruct (ns k !! x) as [[]|] eqn:E; try discriminate H
         end.

(** What a statement binds once its call has returned: the names of
    [binds], and, for a call on an object, the name the object was
    found under. *)
Lemma prepare_bound_names s k actions :
  prepare s k = inr actions ->
  (forall x, x ∈ binds s -> x ∈ bound_names actions)
  /\ (forall x, x ∈ bound_names actions -> x ∈ binds s \/ is_Some (ns k !! x)).
Proof.
  intros H.
  destruct s; cbn [prepare] in H; unfold_lookups; lookup_cases H; injection H as <-;
    rewrite ?bound_names_emits, ?bound_names_imports; cbn [binds];
    (split; intros bound_name Hin; [first [exact Hin | by apply elem_of_nil in Hin] |]);
    first [ by left
          | by apply elem_of_nil in Hin
          | right; apply list_elem_of_singleton in Hin as ->;
            match goal with
            | E : ns k !! ?y = Some _ |- is_Some (ns k !! ?y) => by rewrite E
            end ].
Qed.

(** The log of a statement's effect holds no call. *)
Lemma prepare_no_calls s k actions s' :
  prepare s k = inr actions -> Called s' ∉ emitted actions.
Proof.
  intros H Hin.
  assert (forall es acts, emitted (map Emit es ++ acts) = es ++ emitted acts) as Hemit.
  { intros es acts. unfold emitted. rewrite omap_app. f_equal.
    induction es as [|e es IH]; simpl; [done | by f_equal]. }
  destruct s; cbn [prepare] in H; unfold_lookups; lookup_cases H; injection H as <-;
    rewrite ?bound_names_imports in Hin;
    try (rewrite Hemit in Hin; cbn in Hin; rewrite app_nil_r in Hin;
         by apply stepped_events in Hin);
    try (cbn in Hin;
         first [by apply elem_of_nil in Hin | by apply list_elem_of_singleton in Hin]).
  (* [from module import names]: bindings only *)
  revert Hin. unfold emitted. match goal with |- context [map _ ?l] => induction l end;
    simpl; [by intros ?%elem_of_nil | done].
Qed.

Section Names.

Context {E : Type} (raises : Kernel -> stmt -> option E).

Lemma exec_name_error s k k' x :
  exec raises s k = (k', Some (Python (NameError x))) ->
  x ∈ reads s /\ ns k !! x = None.
Proof.
  unfold exec, mbind at 1, lookup_bind at 1.
  destruct (bound (reads s) k) as [p|[]] eqn:Hbound.
  - intros [= <- ->]. apply bound_inl in Hbound as (y & ? & [= <-] & ?). done.
  - destruct (prepare s k) as [p|actions] eqn:Hprep.
    + intros [= <- ->]. clear Hbound.
      destruct s; cbn [prepare] in Hprep; unfold_lookups; lookup_cases Hprep;
        try discriminate Hprep; injection Hprep as <-; cbn [reads];
        (split; [apply list_elem_of_In; repeat case_match; simpl; auto 10 | done]).
    + by destruct (failure raises k s).
Qed.

(** A statement that reads an unbound name stops before its call. *)
Lemma exec_unbound_read s k x :
  x ∈ reads s -> ns k !! x = None ->
  exists p, exec raises s k = (k, Some (Python p)).
Proof.
  intros Hx Hk. unfold exec, mbind at 1, lookup_bind at 1.
  destruct (bound (reads s) k) as [p|u] eqn:Hbound; [by exists p |].
  apply (bound_inr _ _ _ Hbound) in Hx. rewrite Hk in Hx. by destruct Hx.
Qed.

(** A statement that stops binds nothing. *)
Lemma exec_stopped_ns s k k' y :
  exec raises s k = (k', Some y) -> ns k' = ns k.
Proof.
  unfold exec. destruct ((_ ← bound (reads s); prepare s) k) as [p|actions].
  - by intros [= <- _].
  - destruct (failure raises k s); [by intros [= <- _] | done].
Qed.

(** A statement that completes binds the names of [binds] and unbinds
    none. *)
Lemma exec_completed_ns s k k' x :
  exec raises s k = (k', None) ->
  ns k' !! x = None <-> (ns k !! x = None /\ x ∉ binds s).
Proof.
  unfold exec, mbind at 1, lookup_bind at 1.
  destruct (bound (reads s) k) as [p|[]]; [done |].
  destruct (prepare s k) as [p|actions] eqn:Hprep; [done |].
  destruct (failure raises k s); [done |]. intros [= <-].
  apply prepare_bound_names in Hprep as [Hbinds Hbound].
  rewrite perform_ns. simpl. split.
  - intros [Hk Hx]. split; [done |]. intros ?%Hbinds. done.
  - intros [Hk Hx]. split; [done |]. intros [?|[v Hv]]%Hbound; [done |].
    rewrite Hk in Hv. done.
Qed.

(** The calls a statement logs: its own. *)
Lemma exec_calls s k s' :
  Called s' ∈ log (fst (exec raises s k)) -> Called s' ∈ log k \/ s' = s.
Proof.
  unfold exec, mbind at 1, lookup_bind at 1.
  destruct (bound (reads s) k) as [p|[]]; [by left |].
  destruct (prepare s k) as [p|actions] eqn:Hprep; [by left |].
  destruct (failure raises k s); simpl.
  - intros [?|[= ->]%list_elem_of_singleton]%elem_of_app; auto.
  - rewrite perform_log_emitted. simpl.
    intros [[?|[= ->]%list_elem_of_singleton]%elem_of_app|Hin]%elem_of_app; auto.
    by apply (prepare_no_calls _ _ _ _ Hprep) in Hin.
Qed.

Lemma run_calls body k s' :
  Called s' ∈ log (fst (run raises body k)) -> Called s' ∈ log k \/ s' ∈ body.
Proof.
  induction body as [|s body IH] in k |- *; simpl; [by left |].
  pose proof (exec_calls s k s') as Hs.
  destruct (exec raises s k) as [k' [y|]]; simpl in *.
  - intros [?| ->]%Hs; [by left | right; apply elem_of_cons; by left].
  - intros [[?| ->]%Hs|?]%IH; [by left | right; apply elem_of_cons; by left
                              | right; apply elem_of_cons; by right].
Qed.

(** A name stays unbound as long as no statement binds it. *)
Lemma run_unbound body k k' x :
  run raises body k = (k', None) ->
  Forall (fun s => x ∉ binds s) body ->
  ns k !! x = None -> ns k' !! x = None.
Proof.
  induction body as [|s body IH] in k |- *; simpl; [by intros [= <-] |].
  destruct (exec raises s k) as [k1 [y|]] eqn:Hs; [done |].
  intros Hrun [Hx Hbody]%Forall_cons Hk.
  apply (IH k1); [done | done |].
  by apply (exec_completed_ns _ _ _ _ Hs).
Qed.

(** A body that reads a name no statement before has bound, in a kernel
    that does not bind it either, never gets past that statement. *)
Lemma run_stops_at_unbound_read pre s post k x :
  x ∈ reads s -> Forall (fun s' => x ∉ binds s') pre -> ns k !! x = None ->
  fst (run raises (pre ++ s :: post) k) = fst (run raises pre k)
  /\ snd (run raises (pre ++ s :: post) k) <> None.
Proof.
  intros Hx Hpre Hk. rewrite run_app.
  destruct (run raises pre k) as [k1 [y|]] eqn:Hrun; [done |]. simpl.
  apply (run_unbound _ _ _ _ Hrun Hpre) in Hk.
  destruct (exec_unbound_read s k1 x Hx Hk) as [p ->]. done.
Qed.

Lemma needs_from_fresh have body x : x ∈ needs_from have body -> x ∉ have.
Proof.
  induction body as [|s body IH] in have |- *; simpl; [by intros ?%elem_of_nil |].
  intros [[? _]%list_elem_of_filter|Hx%IH]%elem_of_app; [done |].
  intros ?. apply Hx, elem_of_app. by right.
Qed.

Lemma run_name_error have body k k' x :
  (forall y, y ∈ have -> is_Some (ns k !! y)) ->
  run raises body k = (k', Some (Python (NameError x))) ->
  x ∈ needs_from have body /\ ns k !! x = None.
Proof.
  induction body as [|s body IH] in have, k |- *; simpl; [done |].
  intros Hhave.
  destruct (exec raises s k) as [k1 [y|]] eqn:Hs.
  - intros [= -> ->]. apply exec_name_error in Hs as [Hx Hk]. split; [| done].
    apply elem_of_app. left. apply list_elem_of_filter. split; [| done].
    intros [v Hv]%Hhave. by rewrite Hk in Hv.
  - intros Hrun. apply (IH (binds s ++ have)) in Hrun as [Hx Hk1].
    + split; [apply elem_of_app; by right |].
      by apply (exec_completed_ns _ _ _ _ Hs) in Hk1 as [? _].
    + intros y Hy. destruct (ns k1 !! y) eqn:Hk1; [done |].
      apply (exec_completed_ns _ _ _ _ Hs) in Hk1 as [Hk Hb].
      apply elem_of_app in Hy as [?|[v Hv]%Hhave]; [done | by rewrite Hk in Hv].
Qed.

Lemma run_needs have body k x :
  x ∈ needs_from have body -> ns k !! x = None -> snd (run raises body k) <> None.
Proof.
  induction body as [|s body IH] in have, k |- *; simpl; [by intros ?%elem_of_nil |].
  intros [[_ Hx]%list_elem_of_filter|Hx]%elem_of_app Hk.
  - destruct (exec_unbound_read s k x Hx Hk) as [p ->]. done.
  - destruct (exec raises s k) as [k1 [y|]] eqn:Hs; [done |].
    apply (IH _ _ Hx). apply (exec_completed_ns _ _ _ _ Hs). split; [done |].
    apply needs_from_fresh in Hx. intros ?. apply Hx, elem_of_app. by left.
Qed.

End Names.

(** X2.  The names a body needs decide where Python can raise [NameError]:
    a run stops with [NameError x] only for a name [x] the body reads
    before binding it and the kernel does not bind; and a body cannot
    complete in a kernel that lacks one of the names it needs, whatever
    the collaborators do. *)
Theorem needed_names_decide_name_errors
    {E : Type} (raises : Kernel -> stmt -> option E) (body : list stmt) (k : Kernel) :
  (forall k' x, run raises body k = (k', Some (Python (NameError x))) ->
                x ∈ needs body /\ ns k !! x = None)
  /\ (forall x, x ∈ needs body -> ns k !! x = None -> snd (run raises body k) <> None)
  /\ ((forall x, x ∈ needs body -> is_Some (ns k !! x)) ->
      forall k' x, run raises body k <> (k', Some (Python (NameError x)))).
Proof.
  assert (forall k' x, run raises body k = (k', Some (Python (NameError x))) ->
                       x ∈ needs body /\ ns k !! x = None) as Hsound.
  { intros k' x. apply run_name_error. by intros y ?%elem_of_nil. }
  split; [exact Hsound |]. split.
  - intros x. apply run_needs.
  - intros Hbound k' x [Hx Hk]%Hsound. apply Hbound in Hx as [v Hv].
    by rewrite Hk in Hv.
Qed.

(** X10.  What each code cell needs from the cells run before it.  Run in
    document order the cells of the two simulation runs need nothing
    from outside; the production cell relies on the [stdout] the
    equilibration cell imports, the butane cell on the [time] the
    production cell imports; and the torsion cell prints [phi], which no
    statement of the notebook binds. *)
Theorem what_each_cell_needs :
  map (fun c => (position c, remove_dups (needs (written (source c))))) notebook
  = [(5, []); (7, ["app"]); (11, ["forcefield"; "pdb"; "app"]); (13, ["mm"; "unit"]);
     (16, ["mm"; "app"; "system"; "integrator"; "pdb"]); (19, ["simulation"]);
     (24, ["app"; "unit"; "simulation"]); (28, ["stdout"; "app"; "simulation"]);
     (32, ["mm"; "unit"; "app"; "time"]); (35, ["simulation"; "app"]); (37, []);
     (38, []); (40, ["traj"]); (42, ["traj"]); (45, ["md"; "traj"]);
     (47, ["bond_length"]); (49, ["phi"]); (51, [])]%nat
  /\ needs (document (ethane_run ++ butane_run)) = []
  /\ remove_dups (needs (document notebook)) = ["phi"]
  /\ Forall (fun s => "phi" ∉ binds s) (document notebook).
Proof.
  do 3 (split; [vm_compute; reflexivity |]).
  apply (bool_decide_unpack _). vm_compute. exact I.
Qed.

(** X3.  The butane cell needs four names from the cells before it: [app],
    [mm] and [unit], which the first cell imports, and [time], which
    only the ethane production cell imports.  In a kernel that does not
    bind [time] the cell cannot complete, whatever the collaborators do:
    it stops at [tinit=time.time()] at the latest, so the only
    [simulation.step] it can have called is the one of the
    equilibration, and the production run is never started. *)
Theorem butane_cell_relies_on_an_earlier_import
    {E : Type} (raises : Kernel -> stmt -> option E) (k : Kernel) :
  ns k !! "time" = None ->
  remove_dups (needs (written (source cell_32))) = ["mm"; "unit"; "app"; "time"]
  /\ snd (run_cell raises cell_32 k) <> None
  /\ (forall n, Called (simulation_step n) ∈ log (fst (run_cell raises cell_32 k)) ->
                Called (simulation_step n) ∈ log k \/ n = 5000).
Proof.
  intros Hk. split; [vm_compute; reflexivity |].
  set (pre := take 20 (written (source cell_32))).
  set (post := drop 21 (written (source cell_32))).
  assert (run_cell raises cell_32 k = run raises (pre ++ assign_time "tinit" :: post) k)
    as -> by reflexivity.
  assert ("time" ∈ reads (assign_time "tinit")) as Hread
    by (apply list_elem_of_singleton; reflexivity).
  assert (Forall (fun s => "time" ∉ binds s) pre) as Hpre
    by (apply (bool_decide_unpack _); vm_compute; exact I).
  destruct (run_stops_at_unbound_read raises pre _ post k "time" Hread Hpre Hk) as [-> Hstop].
  split; [exact Hstop |].
  intros n [Hin|Hin]%run_calls; [by left | right].
  apply list_elem_of_In in Hin. vm_compute in Hin.
  repeat (destruct Hin as [Hin|Hin]; [try discriminate Hin |]); [| destruct Hin].
  by injection Hin as <-.
Qed.

(** In the kernel the first cell leaves, which binds [mm], [app] and
    [unit] only, the butane cell stops before its production run. *)
Lemma butane_cell_after_the_imports_only :
  let k := fst (run_all flawless [cell_5] fresh) in
  ns k !! "time" = None
  /\ snd (run_cell flawless cell_32 k) <> None
  /\ (forall n, Called (simulation_step n) ∈ log (fst (run_cell flawless cell_32 k)) ->
                Called (simulation_step n) ∈ log k \/ n = 5000).
Proof.
  intros k.
  assert (ns k !! "time" = None) as Hk by (vm_compute; reflexivity).
  split; [exact Hk |].
  exact (proj2 (butane_cell_relies_on_an_earlier_import flawless k Hk)).
Defined.

(** ** The simulation object from statement to statement *)

Lemma current_simulation_lookup k sim :
  current_simulation k = Some sim <-> ns k !! "simulation" = Some (SimulationObj sim).
Proof.
  unfold current_simulation, the_simulation, name, mbind, lookup_bind.
  destruct (ns k !! "simulation") as [[]|]; simpl;
    (split; [intros [= ->] || intros [=]; done | intros [= ->] || intros [=]; done]).
Qed.

Lemma perform_lookup_other actions k x :
  x ∉ bound_names actions -> ns (perform actions k) !! x = ns k !! x.
Proof.
  unfold perform. induction actions as [|a actions IH] in k |- *; simpl; [done |].
  destruct a as [y v|e]; simpl.
  - intros [? ?]%not_elem_of_cons. rewrite IH by done. simpl. by apply lookup_insert_ne.
  - intros ?. by rewrite IH.
Qed.

Section OnSimulation.

Context {E : Type} (raises : Kernel -> stmt -> option E).

(** A statement that completes leaves the simulation object as
    [on_simulation] says. *)
Lemma exec_on_simulation s k k' sim sim' :
  exec raises s k = (k', None) ->
  current_simulation k = Some sim ->
  on_simulation s sim = Some sim' ->
  current_simulation k' = Some sim'.
Proof.
  rewrite !current_simulation_lookup.
  unfold exec, mbind at 1, lookup_bind at 1.
  destruct (bound (reads s) k) as [p|[]]; [done |].
  destruct (prepare s k) as [p|actions] eqn:Hprep; [done |].
  destruct (failure raises k s); [done |]. intros [= <-] Hk Hon.
  unfold on_simulation in Hon. case_bool_decide as Hbinds; [done |].
  destruct s; try discriminate Hon; injection Hon as <-;
    cbn [prepare] in Hprep; unfold_lookups; rewrite ?Hk in Hprep;
    lookup_cases Hprep; injection Hprep as <-;
    try (unfold perform; rewrite foldl_app; cbn [foldl act assign ns];
         by apply lookup_insert_eq);
    try (rewrite perform_lookup_other;
         [exact Hk | rewrite ?bound_names_imports; exact Hbinds]);
    try (cbn; by apply lookup_insert_eq);
    try (cbn; exact Hk).
Qed.

(** A body that completes leaves the simulation object as [through]
    says. *)
Lemma run_through body k k' sim sim' :
  run raises body k = (k', None) ->
  current_simulation k = Some sim ->
  through body sim = Some sim' ->
  current_simulation k' = Some sim'.
Proof.
  induction body as [|s body IH] in k, sim |- *; simpl.
  - by intros [= <-] -> [= <-].
  - destruct (exec raises s k) as [k1 [y|]] eqn:Hs; [done |].
    intros Hrun Hk. destruct (on_simulation s sim) as [sim1|] eqn:Hon; [| done]. simpl.
    apply (IH k1 sim1 Hrun). by apply (exec_on_simulation s k k1 sim sim1).
Qed.

End OnSimulation.

(** Stepping neither attaches nor detaches a reporter, and adds to the
    step counter. *)
Lemma stepped_object n sim :
  (reporters (snd (stepped n sim))).*1 = (reporters sim).*1
  /\ currentStep (snd (stepped n sim)) = currentStep sim + n
  /\ velocities (snd (stepped n sim)) = velocities sim
  /\ minimizations (snd (stepped n sim)) = minimizations sim
  /\ topology (snd (stepped n sim)) = topology sim.
Proof.
  unfold stepped. simpl. repeat split.
  induction (reporters sim) as [|[r started] rs IH]; simpl; [done |]. f_equal; [| exact IH].
  destruct r; simpl; [| done].
  by destruct (report_steps _ _ _).
Qed.

(** ** Running a cell again *)

(** X4.  Whenever the equilibration cell completes, whatever the collaborators
    and whatever the simulation object was before, the object has one
    more console reporter than before (the cell attaches one of interval
    100 and detaches none), its velocities are drawn at 150 K, and its
    step counter is 2,500 higher: a second run of the cell stacks a
    second console reporter on the first. *)
Theorem equilibration_cell_adds_a_reporter
    {E : Type} (raises : Kernel -> stmt -> option E) (k k' : Kernel) (sim : Simulation) :
  current_simulation k = Some sim ->
  run_cell raises cell_24 k = (k', None) ->
  exists sim',
    current_simulation k' = Some sim'
    /\ (reporters sim').*1
       = (reporters sim).*1 ++ [StateDataReporter stdout 100 true false true true false ","]
    /\ currentStep sim' = currentStep sim + 2500
    /\ velocities sim' = Some (unit.mul (Float 150.0) unit.kelvin)
    /\ minimizations sim' = minimizations sim.
Proof.
  intros Hsim Hrun. eexists. split.
  - eapply (run_through raises _ k k' sim); [exact Hrun | exact Hsim | reflexivity].
  - match goal with
    | |- context [stepped ?n ?s] => destruct (stepped_object n s) as (Hr & Hc & Hv & Hm & _)
    end.
    rewrite Hr, Hc, Hv, Hm. simpl. by rewrite fmap_app.
Qed.

(** Run a second time right after the first, the equilibration cell
    leaves two console reporters attached and the step counter at
    5,000. *)
Lemma equilibration_cell_run_twice :
  exists sim',
    current_simulation (fst (run_cell flawless cell_24 after_equilibration)) = Some sim'
    /\ (reporters sim').*1
       = [StateDataReporter stdout 100 true false true true false ",";
          StateDataReporter stdout 100 true false true true false ","]
    /\ currentStep sim' = 5000.
Proof.
  destruct (current_simulation after_equilibration) as [sim|] eqn:Hsim;
    [| vm_compute in Hsim; discriminate Hsim].
  destruct (run_cell flawless cell_24 after_equilibration) as [k' [y|]] eqn:Hrun;
    [vm_compute in Hrun; discriminate Hrun |].
  destruct (equilibration_cell_adds_a_reporter flawless after_equilibration k' sim Hsim Hrun)
    as (sim' & Hk' & Hr & Hc & _).
  exists sim'. split; [exact Hk' |].
  vm_compute in Hsim. injection Hsim as <-.
  split; [exact Hr | exact Hc].
Defined.

(** X5.  Whenever the ethane production cell completes, whatever the
    collaborators and whatever reporters were attached before, exactly
    its own two reporters are attached afterwards (it clears the list
    first), and the step counter is 10,000,000 higher: the cell can be
    run again without stacking reporters. *)
Theorem production_cell_replaces_the_reporters
    {E : Type} (raises : Kernel -> stmt -> option E) (k k' : Kernel) (sim : Simulation) :
  current_simulation k = Some sim ->
  run_cell raises cell_28 k = (k', None) ->
  exists sim',
    current_simulation k' = Some sim'
    /\ (reporters sim').*1
       = [StateDataReporter stdout 250000 true true true true true ",";
          DCDReporter "ethane_sim.dcd" 100]
    /\ currentStep sim' = currentStep sim + 10000000
    /\ velocities sim' = velocities sim
    /\ minimizations sim' = minimizations sim.
Proof.
  intros Hsim Hrun. eexists. split.
  - eapply (run_through raises _ k k' sim); [exact Hrun | exact Hsim | reflexivity].
  - match goal with
    | |- context [stepped ?n ?s] => destruct (stepped_object n s) as (Hr & Hc & Hv & Hm & _)
    end.
    rewrite Hr, Hc, Hv, Hm. done.
Qed.

(** Run in the kernel the equilibration cell leaves, the production cell
    replaces the equilibration's console reporter by its own two. *)
Lemma production_cell_after_equilibration :
  exists sim',
    current_simulation (fst (run_cell flawless cell_28 after_equilibration)) = Some sim'
    /\ (reporters sim').*1
       = [StateDataReporter stdout 250000 true true true true true ",";
          DCDReporter "ethane_sim.dcd" 100]
    /\ currentStep sim' = 10002500.
Proof.
  destruct (current_simulation after_equilibration) as [sim|] eqn:Hsim;
    [| vm_compute in Hsim; discriminate Hsim].
  destruct (run_cell flawless cell_28 after_equilibration) as [k' [y|]] eqn:Hrun;
    [vm_compute in Hrun; discriminate Hrun |].
  destruct (production_cell_replaces_the_reporters flawless after_equilibration k' sim Hsim Hrun)
    as (sim' & Hk' & Hr & Hc & _).
  exists sim'. split; [exact Hk' |].
  vm_compute in Hsim. injection Hsim as <-.
  split; [exact Hr | exact Hc].
Defined.

(** X6.  The reporter cell of the analysis section ("you do not need to
    execute it") attaches a trajectory reporter on [ethane_sim.dcd] to
    whatever simulation object [simulation] names when it is run, and
    changes nothing else of it. *)
Theorem reporter_cell_attaches_to_the_current_simulation
    {E : Type} (raises : Kernel -> stmt -> option E) (k k' : Kernel) (sim : Simulation) :
  current_simulation k = Some sim ->
  run_cell raises cell_35 k = (k', None) ->
  current_simulation k'
  = Some (with_reporters (reporters sim ++ [(DCDReporter "ethane_sim.dcd" 100, false)]) sim).
Proof.
  intros Hsim Hrun.
  eapply (run_through raises _ k k' sim); [exact Hrun | exact Hsim | reflexivity].
Qed.

(** In a "Run All" the cell comes after the butane run: it attaches the
    reporter on [ethane_sim.dcd] to the butane simulation. *)
Lemma reporter_cell_after_the_butane_run :
  exists sim',
    current_simulation (fst (run_cell flawless cell_35 after_butane)) = Some sim'
    /\ topology sim' = "data/butane.pdb"
    /\ (reporters sim').*1
       = [StateDataReporter stdout 500000 true true true true true ",";
          DCDReporter "butane_sim.dcd" 100;
          DCDReporter "ethane_sim.dcd" 100].
Proof.
  destruct (current_simulation after_butane) as [sim|] eqn:Hsim;
    [| vm_compute in Hsim; discriminate Hsim].
  destruct (run_cell flawless cell_35 after_butane) as [k' [y|]] eqn:Hrun;
    [vm_compute in Hrun; discriminate Hrun |].
  pose proof (reporter_cell_attaches_to_the_current_simulation
                flawless after_butane k' sim Hsim Hrun) as Hk'.
  eexists. split; [exact Hk' |].
  vm_compute in Hsim. injection Hsim as <-.
  split; reflexivity.
Defined.
